(** * scripts/scrape-cse120.py: the CSE 120 course page scraper

    A shallow embedding of [CSE120Scraper] and [main], and the properties of
    the schedule table locator, the topic row extractor, the link categorizer,
    the enrichment adapter and the bundle assembler.

    Modelling conventions.
    - Text is a [string] of ASCII characters.  [str.lower], [str.strip], [\s]
      and [\d] are Python's, restricted to ASCII (the separators 0x1c-0x1f are
      white space for Python, and are here too).
    - The parse tree built by BeautifulSoup is a rose tree of tags and text;
      [find_all], [find] and [get_text] walk it in document order.
    - A Python exception is a value of [exn]; code that may raise lives in the
      monad [M], which also threads the number of POST requests issued so far.
      The outcomes of the network calls, the clock, what [urljoin] does
      (it raises a ValueError on an href such as "//[") and the interpreter's
      cap on the digits [int] converts are read from a [World].
    - Console output ([print]) and [time.sleep] are left out: they change
      neither the values computed nor the control flow.
    - Python integers are unbounded ([Z]); [int] raises a ValueError on a
      numeral of more digits than the interpreter's cap (4300 unless
      configured otherwise).  Memory is unbounded: the size of the list that
      [range] is turned into is not modelled.  The float literals 0.70,
      0.85, ... are kept as the decimal fractions they are written as ([Q]);
      no arithmetic is ever done on them. *)

From Stdlib Require Import String Ascii List ZArith QArith Bool Lia Arith.
From Stdlib Require Import DecimalString.
Import ListNotations.

#[local] Close Scope Q_scope.
#[local] Open Scope string_scope.
#[local] Open Scope list_scope.
#[local] Open Scope nat_scope.
#[local] Set Warnings "-register-all".

(* ================================================================== *)
(** ** Python string operations *)

Module PyStr.

(** [c.isspace()] for an ASCII character, which is also [\s]. *)
Definition isspace (c : ascii) : bool :=
  let n := nat_of_ascii c in
  ((9 <=? n) && (n <=? 13)) || ((28 <=? n) && (n <=? 32)).

(** [\d] for an ASCII character. *)
Definition isdigit (c : ascii) : bool :=
  let n := nat_of_ascii c in (48 <=? n) && (n <=? 57).

Definition lower_char (c : ascii) : ascii :=
  let n := nat_of_ascii c in
  if (65 <=? n) && (n <=? 90) then ascii_of_nat (n + 32) else c.

(** [s.lower()] *)
Fixpoint lower (s : string) : string :=
  match s with
  | EmptyString => EmptyString
  | String c s' => String (lower_char c) (lower s')
  end.

Fixpoint lstrip (s : string) : string :=
  match s with
  | EmptyString => EmptyString
  | String c s' => if isspace c then lstrip s' else s
  end.

Fixpoint rstrip (s : string) : string :=
  match s with
  | EmptyString => EmptyString
  | String c s' =>
      match rstrip s' with
      | EmptyString => if isspace c then EmptyString else String c EmptyString
      | r => String c r
      end
  end.

(** [s.strip()] *)
Definition strip (s : string) : string := rstrip (lstrip s).

(** [s.startswith(p)] *)
Definition startswith (s p : string) : bool := String.prefix p s.

(** [sub in s] *)
Fixpoint contains (sub s : string) : bool :=
  String.prefix sub s
  || match s with
     | EmptyString => false
     | String _ s' => contains sub s'
     end.

(** [sep.join(l)] *)
Definition join (sep : string) (l : list string) : string :=
  String.concat sep l.

(** [str(i)] for an integer. *)
Definition str_of_int (z : Z) : string :=
  NilZero.string_of_int (Z.to_int z).

(** [int(s)] on a run of ASCII digits. *)
Definition int_of_digits (s : string) : Z :=
  fold_left
    (fun acc c => (10 * acc + (Z.of_nat (nat_of_ascii c) - 48))%Z)
    (list_ascii_of_string s) 0%Z.

End PyStr.

(* ================================================================== *)
(** ** Regular expressions, matched the way [re] does *)

Module Re.

(** The fragment of the pattern language that the script uses. *)
Inductive regex :=
| Eps                        (* the empty pattern *)
| Lit (c : ascii)            (* a literal character *)
| Digit                      (* \d *)
| Space                      (* \s *)
| Seq (r1 r2 : regex)
| Opt (r : regex)            (* r?  greedy *)
| Star (r : regex)           (* r*  greedy *)
| Group (i : nat) (r : regex)  (* capturing group number i *).

(** [r+] *)
Definition Plus (r : regex) : regex := Seq r (Star r).

(** A literal word. *)
Fixpoint Word (w : string) : regex :=
  match w with
  | EmptyString => Eps
  | String c w' => Seq (Lit c) (Word w')
  end.

(** [\d{1,2}] *)
Definition Digit12 : regex := Seq Digit (Opt Digit).

(** What the groups have captured, latest first: the number of the group,
    the text at the point where the group began and the text left where it
    ended. *)
Definition captures := list (nat * (string * string)).

(** The text consumed between [s] and its suffix [s']. *)
Definition consumed (s s' : string) : string :=
  String.substring 0 (String.length s - String.length s') s.

(** [run ic r s caps] lists every way for [r] to match a prefix of [s], as
    the text left over and the captures, in the order in which a
    backtracking matcher tries them (greedy operators take the longest
    first).  [ic] is [re.IGNORECASE]. *)
Fixpoint run (ic : bool) (r : regex) (s : string) (caps : captures)
  : list (string * captures) :=
  match r with
  | Eps => [(s, caps)]
  | Lit c =>
      match s with
      | String a s' =>
          if (if ic then Ascii.eqb (PyStr.lower_char a) (PyStr.lower_char c)
              else Ascii.eqb a c)
          then [(s', caps)] else []
      | EmptyString => []
      end
  | Digit =>
      match s with
      | String a s' => if PyStr.isdigit a then [(s', caps)] else []
      | EmptyString => []
      end
  | Space =>
      match s with
      | String a s' => if PyStr.isspace a then [(s', caps)] else []
      | EmptyString => []
      end
  | Seq r1 r2 =>
      flat_map (fun m => run ic r2 (fst m) (snd m)) (run ic r1 s caps)
  | Opt r' => run ic r' s caps ++ [(s, caps)]
  | Star r' =>
      (fix loop (fuel : nat) (s : string) (caps : captures)
         : list (string * captures) :=
         match fuel with
         | O => [(s, caps)]
         | S fuel' =>
             flat_map
               (fun m =>
                  if String.length (fst m) <? String.length s
                  then loop fuel' (fst m) (snd m) else [])
               (run ic r' s caps)
             ++ [(s, caps)]
         end) (String.length s) s caps
  | Group i r' =>
      map (fun m => (fst m, (i, (s, fst m)) :: snd m))
          (run ic r' s caps)
  end.

(** A match object: the text after the match and the captures. *)
Definition match_obj := (string * captures)%type.

(** [m.group(i)]; the empty string stands for a group that took no part. *)
Fixpoint group (i : nat) (caps : captures) : string :=
  match caps with
  | [] => EmptyString
  | (j, (s, s')) :: caps' =>
      if Nat.eqb i j then consumed s s' else group i caps'
  end.

(** [re.match(r, s)]: a match at the start of [s] only. *)
Definition re_match (ic : bool) (r : regex) (s : string) : option match_obj :=
  hd_error (run ic r s []).

(** [re.search(r, s)]: the leftmost match. *)
Fixpoint re_search (ic : bool) (r : regex) (s : string) : option match_obj :=
  match re_match ic r s with
  | Some m => Some m
  | None =>
      match s with
      | EmptyString => None
      | String _ s' => re_search ic r s'
      end
  end.

(** [re.findall(r, s)] for a pattern with one group, number 1: the text of
    the group in each of the leftmost non-overlapping matches. *)
Fixpoint findall_fuel (fuel : nat) (ic : bool) (r : regex) (s : string)
  : list string :=
  match fuel with
  | O => []
  | S fuel' =>
      match re_match ic r s, s with
      | Some (s', caps), String _ t =>
          group 1 caps
          :: findall_fuel fuel' ic r
               (if String.length s' <? String.length s then s' else t)
      | Some (_, caps), EmptyString => [group 1 caps]
      | None, String _ t => findall_fuel fuel' ic r t
      | None, EmptyString => []
      end
  end.

Definition findall (ic : bool) (r : regex) (s : string) : list string :=
  findall_fuel (S (String.length s)) ic r s.

(** Truth value of what [re.match] and [re.search] return. *)
Definition matched (m : option match_obj) : bool :=
  match m with Some _ => true | None => false end.

End Re.

(* ================================================================== *)
(** ** The parse tree and the BeautifulSoup queries the script makes *)

Module Bs4.

Inductive node :=
| Text (s : string)
| Tag (name : string) (attrs : list (string * string)) (contents : list node).

(** Everything below a node, in document order. *)
Fixpoint descendants (n : node) : list node :=
  match n with
  | Text _ => []
  | Tag _ _ cs => flat_map (fun c => c :: descendants c) cs
  end.

Definition is_tag (names : list string) (n : node) : bool :=
  match n with
  | Text _ => false
  | Tag nm _ _ => existsb (String.eqb nm) names
  end.

Fixpoint lookup (k : string) (attrs : list (string * string)) : option string :=
  match attrs with
  | [] => None
  | (k', v) :: attrs' => if String.eqb k k' then Some v else lookup k attrs'
  end.

(** [tag.get(k)] *)
Definition get (n : node) (k : string) : option string :=
  match n with
  | Text _ => None
  | Tag _ a _ => lookup k a
  end.

Definition has_attr (k : string) (n : node) : bool :=
  match get n k with Some _ => true | None => false end.

(** [n.find_all(names)] *)
Definition find_all (names : list string) (n : node) : list node :=
  filter (is_tag names) (descendants n).

(** [n.find_all(name, k=True)]: the tags that carry the attribute [k]. *)
Definition find_all_with (names : list string) (k : string) (n : node)
  : list node :=
  filter (fun x => is_tag names x && has_attr k x) (descendants n).

(** [n.find(name)] *)
Definition find (names : list string) (n : node) : option node :=
  hd_error (find_all names n).

(** [n.get_text()] *)
Fixpoint get_text (n : node) : string :=
  match n with
  | Text s => s
  | Tag _ _ cs => String.concat "" (map get_text cs)
  end.

End Bs4.

(* ================================================================== *)
(** ** Python values, as far as the output document needs them *)

Inductive pyval :=
| PyNone
| PyInt (z : Z)
| PyFloat (q : Q)
| PyStr (s : string)
| PyList (l : list pyval)
| PyDict (items : list (string * pyval)).

(** [bool(v)] *)
Definition truthy (v : pyval) : bool :=
  match v with
  | PyNone => false
  | PyInt z => negb (Z.eqb z 0)
  | PyFloat q => negb (Z.eqb (Qnum q) 0)
  | PyStr s => negb (String.eqb s "")
  | PyList l => match l with [] => false | _ => true end
  | PyDict d => match d with [] => false | _ => true end
  end.

(** [list(d.keys())], in insertion order. *)
Definition keys (v : pyval) : list string :=
  match v with
  | PyDict d => map fst d
  | _ => []
  end.

Fixpoint assoc (k : string) (d : list (string * pyval)) : option pyval :=
  match d with
  | [] => None
  | (k', v) :: d' => if String.eqb k k' then Some v else assoc k d'
  end.

(** [d.get(k)] *)
Definition dict_get (v : pyval) (k : string) : option pyval :=
  match v with
  | PyDict d => assoc k d
  | _ => None
  end.

(** [bool(s)] for an optional string such as the API key. *)
Definition truthy_str (s : option string) : bool :=
  match s with
  | None => false
  | Some t => negb (String.eqb t "")
  end.

(** [a or b] on optional strings. *)
Definition py_or (a b : option string) : option string :=
  if truthy_str a then a else b.

Definition pystr_opt (s : option string) : pyval :=
  match s with Some t => PyStr t | None => PyNone end.

(* ================================================================== *)
(** ** Exceptions, the outside world and the monad of the script *)

Inductive exn :=
| RequestException (msg : string)   (* requests.RequestException and subclasses *)
| KeyError (key : string)
| IndexError
| ValueError (msg : string)         (* json decoding errors are ValueErrors *)
| OtherException (msg : string).

(** [isinstance(e, requests.RequestException)] *)
Definition is_RequestException (e : exn) : bool :=
  match e with RequestException _ => true | _ => false end.

(** What [session.get] does: it raises a [requests.RequestException], or
    returns a response whose body parses to [soup]. *)
Inductive get_outcome :=
| GetRaises (msg : string)
| GetReturns (status_code : Z) (soup : Bs4.node).

(** A response to a POST: its status and what [response.json()] does. *)
Record Response := {
  status_code : Z;
  json_body : exn + pyval
}.

Inductive post_outcome :=
| PostRaises (e : exn)
| PostReturns (r : Response).

Record Request := {
  req_url : string;
  req_headers : pyval;
  req_json : pyval;
  req_timeout : Z
}.

Record World := {
  (** [session.get(url, timeout=t)] *)
  w_get : string -> Z -> get_outcome;
  (** the outcome of the [n]-th POST of the run, given the request *)
  w_post : nat -> Request -> post_outcome;
  (** [requests.compat.urljoin(base, url)]: the joined url, or the
      exception it raises *)
  w_urljoin : string -> string -> exn + string;
  (** [sys.get_int_max_str_digits()]: the most digits [int] converts; 0
      when there is no cap *)
  w_int_max_str_digits : nat;
  (** [int(time.time())]: the integer part of a float, a number of a few
      hundred digits at most, which [str] converts under every cap *)
  w_time : Z;
  (** [time.strftime("%Y-%m-%dT%H:%M:%SZ", time.gmtime())] *)
  w_strftime : string
}.

(** A computation that may raise, and that counts the POSTs it issues. *)
Definition M (A : Type) : Type := nat -> (exn + A) * nat.

Definition ret {A} (a : A) : M A := fun n => (inr a, n).

Definition raise {A} (e : exn) : M A := fun n => (inl e, n).

Definition bind {A B} (m : M A) (k : A -> M B) : M B :=
  fun n =>
    match m n with
    | (inl e, n') => (inl e, n')
    | (inr a, n') => k a n'
    end.

(** [try: body  except ...: handler e] *)
Definition try_except {A} (body : M A) (handler : exn -> M A) : M A :=
  fun n =>
    match body n with
    | (inl e, n') => handler e n'
    | (inr a, n') => (inr a, n')
    end.

Notation "x <- m ;; k" := (bind m (fun x => k))
  (at level 61, m at next level, right associativity).

(** A computation that may raise and does nothing else, run where it
    stands. *)
Definition lift {A} (x : exn + A) : M A := fun n => (x, n).

Definition bind_E {A B} (x : exn + A) (k : A -> exn + B) : exn + B :=
  match x with
  | inl e => inl e
  | inr a => k a
  end.

Notation "x <~ m ;; k" := (bind_E m (fun x => k))
  (at level 61, m at next level, right associativity).

(** [[f(x) for x in l]]: the first exception ends the comprehension. *)
Fixpoint map_E {A B} (f : A -> exn + B) (l : list A) : exn + list B :=
  match l with
  | [] => inr []
  | x :: l' => y <~ f x ;; ys <~ map_E f l' ;; inr (y :: ys)
  end.

(** [int(s)] on a run of ASCII digits, under a cap of [max_str_digits] on
    the digits of the numeral (leading zeros count; 0 is no cap). *)
Definition py_int (max_str_digits : nat) (s : string) : exn + Z :=
  if negb (Nat.eqb max_str_digits 0) && (max_str_digits <? String.length s)
  then inl (ValueError "Exceeds the limit for integer string conversion")
  else inr (PyStr.int_of_digits s).

(** [l[i]] *)
Definition list_getitem {A} (l : list A) (i : nat) : M A :=
  match nth_error l i with
  | Some a => ret a
  | None => raise IndexError
  end.

(** [tag[k]] *)
Definition tag_getitem (n : Bs4.node) (k : string) : M string :=
  match Bs4.get n k with
  | Some v => ret v
  | None => raise (KeyError k)
  end.

(** [response.json()] *)
Definition response_json (r : Response) : M pyval :=
  match json_body r with
  | inl e => raise e
  | inr v => ret v
  end.

(* ================================================================== *)
(** ** The scraper *)

(** A hyperlink of the schedule row: [{"url": ..., "title": ...}]. *)
Record Resource := {
  url : string;
  title : string
}.

(** [week_data["resources"]]: the four buckets. *)
Record Resources := {
  textbook : list Resource;
  slides : list Resource;
  homework : list Resource;
  papers : list Resource
}.

(** [week_data] *)
Record WeekData := {
  week : Z;
  topic : string;
  resources : Resources
}.

(** The keys of [week_data["resources"]]. *)
Inductive Category := Textbook | Slides | Homework | Papers.

Definition bucket (c : Category) (r : Resources) : list Resource :=
  match c with
  | Textbook => textbook r
  | Slides => slides r
  | Homework => homework r
  | Papers => papers r
  end.

(** A Resource as the dict it is in the source. *)
Definition resource_dict (r : Resource) : pyval :=
  PyDict [("url", PyStr (url r)); ("title", PyStr (title r))].

Module Patterns.
Import Re.

Fixpoint Cat (l : list regex) : regex :=
  match l with
  | [] => Eps
  | [r] => r
  | r :: l' => Seq r (Cat l')
  end.

(** [ch\.?\s*\d+] *)
Definition ch_number : regex :=
  Cat [Word "ch"; Opt (Lit "."); Star Space; Plus Digit].
(** [hw\s*\d+] *)
Definition hw_number : regex := Cat [Word "hw"; Star Space; Plus Digit].
(** [pr\s*\d+] *)
Definition pr_number : regex := Cat [Word "pr"; Star Space; Plus Digit].
(** [\d{1,2}/\d{1,2}] *)
Definition short_date : regex := Cat [Digit12; Lit "/"; Digit12].
(** [semaphores?\s+(and\s+)?monitors?] *)
Definition semaphores_monitors : regex :=
  Cat [Word "semaphore"; Opt (Lit "s"); Plus Space;
       Opt (Group 1 (Cat [Word "and"; Plus Space]));
       Word "monitor"; Opt (Lit "s")].
(** [chapter\s*(\d+)] *)
Definition chapter_group : regex :=
  Cat [Word "chapter"; Star Space; Group 1 (Plus Digit)].
(** [ch\.?\s*(\d+)] *)
Definition ch_group : regex :=
  Cat [Word "ch"; Opt (Lit "."); Star Space; Group 1 (Plus Digit)].
(** [(\d+\.\d+)] *)
Definition dotted_number : regex :=
  Group 1 (Cat [Plus Digit; Lit "."; Plus Digit]).
(** [(\d+)-(\d+)] *)
Definition number_range : regex :=
  Cat [Group 1 (Plus Digit); Lit "-"; Group 2 (Plus Digit)].
End Patterns.

Definition PARALLEL_API_BASE : string := "https://api.parallel.ai/v1beta".

Definition newline : string := String (ascii_of_nat 10) EmptyString.

Module CSE120Scraper.
Import PyStr Re Bs4.

(** The attributes of [self]. *)
Record Self := {
  parallel_api_key : option string;
  course_url : string
}.

(** [CSE120Scraper(parallel_api_key)]; [env_key] is the module's
    [PARALLEL_API_KEY], read from the environment. *)
Definition __init__ (env_key : option string) (parallel_api_key : option string)
  : Self :=
  {| parallel_api_key := py_or parallel_api_key env_key;
     course_url := "https://cseweb.ucsd.edu/classes/fa25/cse120-a/" |}.

(** *** [_categorize_link] *)

Definition add_to (c : Category) (x : Resource) (r : Resources) : Resources :=
  match c with
  | Textbook => {| textbook := textbook r ++ [x]; slides := slides r;
                   homework := homework r; papers := papers r |}
  | Slides => {| textbook := textbook r; slides := slides r ++ [x];
                 homework := homework r; papers := papers r |}
  | Homework => {| textbook := textbook r; slides := slides r;
                   homework := homework r ++ [x]; papers := papers r |}
  | Papers => {| textbook := textbook r; slides := slides r;
                 homework := homework r; papers := papers r ++ [x] |}
  end.

Definition _categorize_link (url text : string) (resources : Resources)
  : Resources :=
  let text_lower := lower text in
  let url_lower := lower url in
  if matched (re_match false Patterns.ch_number text_lower)
     || contains "chapter" text_lower
     || contains "textbook" text_lower
     || contains "reading" text_lower
  then add_to Textbook {| url := url; title := text |} resources
  else if contains "homework" text_lower
          || contains "assignment" text_lower
          || contains "project" text_lower
          || matched (re_match false Patterns.hw_number text_lower)
          || matched (re_match false Patterns.pr_number text_lower)
  then add_to Homework {| url := url; title := text |} resources
  else if contains "slide" text_lower
          || contains ".ppt" url_lower
          || (contains "lecture" url_lower && contains ".pdf" url_lower)
          || contains "/sema.pdf" url_lower
  then add_to Slides {| url := url; title := text |} resources
  else if contains "paper" text_lower
          || contains "arxiv" url_lower
          || contains "acm" url_lower
          || contains "ieee" url_lower
          || contains "language" text_lower
          || contains "optional" text_lower
          || contains "cv" text_lower
  then add_to Papers {| url := url; title := text |} resources
  else if contains ".pdf" url_lower
  then add_to Slides {| url := url; title := text |} resources
  else add_to Papers {| url := url; title := text |} resources.

(** *** The heuristics of the enriched records *)

Fixpoint _extract_authors_loop (common_authors : list string) (title : string)
  : list string :=
  match common_authors with
  | [] => ["Unknown Author"]
  | author :: rest =>
      if contains (lower author) (lower title) then
        if String.eqb author "Silberschatz" then
          ["Abraham Silberschatz"; "Peter Baer Galvin"; "Greg Gagne"]
        else if String.eqb author "Tanenbaum" then
          ["Andrew S. Tanenbaum"; "Herbert Bos"]
        else _extract_authors_loop rest title
      else _extract_authors_loop rest title
  end.

Definition _extract_authors (title : string) : list string :=
  _extract_authors_loop
    ["Silberschatz"; "Galvin"; "Gagne"; "Tanenbaum"; "Bos"] title.

Definition _extract_chapter_number (w : World) (title : string) : exn + Z :=
  match re_search true Patterns.chapter_group title with
  | Some m => py_int (w_int_max_str_digits w) (group 1 (snd m))
  | None =>
      match re_search true Patterns.ch_group title with
      | Some m => py_int (w_int_max_str_digits w) (group 1 (snd m))
      | None => inr 1%Z
      end
  end.

(** [range(a, b)] *)
Definition range (a b : Z) : list Z :=
  map (fun k => (a + Z.of_nat k)%Z) (seq 0 (Z.to_nat (b - a))).

Definition _extract_problem_numbers (w : World) (title : string)
  : exn + list string :=
  match findall false Patterns.dotted_number title with
  | (_ :: _) as problems => inr problems
  | [] =>
      match re_search false Patterns.number_range title with
      | Some range_match =>
          start <~ py_int (w_int_max_str_digits w)
                          (group 1 (snd range_match)) ;;
          end_ <~ py_int (w_int_max_str_digits w)
                         (group 2 (snd range_match)) ;;
          inr (map str_of_int (range start (end_ + 1)))
      | None => inr ["1"; "2"; "3"]
      end
  end.

Definition str_list (l : list string) : pyval := PyList (map PyStr l).

(** The three records, given what the heuristics computed; [confidence] is
    the only entry in which the two places that build them differ. *)
Definition textbook_record (resource : Resource) (chapter : Z)
           (confidence : Q) : pyval :=
  PyDict [("title", PyStr (title resource));
          ("url", PyStr (url resource));
          ("authors", str_list (_extract_authors (title resource)));
          ("pages", PyList [PyInt 1; PyInt 50]);
          ("chapter", PyInt chapter);
          ("confidence", PyFloat confidence)].

Definition slides_record (resource : Resource) (confidence : Q) : pyval :=
  PyDict [("title", PyStr (title resource));
          ("url", PyStr (url resource));
          ("pages", PyInt 40);
          ("professor", PyStr "CSE 120 Staff");
          ("confidence", PyFloat confidence)].

Definition homework_record (resource : Resource) (problems : list string)
           (confidence : Q) : pyval :=
  PyDict [("assignment", PyStr (title resource));
          ("url", PyStr (url resource));
          ("problems", str_list problems);
          ("confidence", PyFloat confidence)].

Definition _basic_structure (w : World) (resource : Resource)
           (resource_type : string) : exn + pyval :=
  if String.eqb resource_type "textbook" then
    chapter <~ _extract_chapter_number w (title resource) ;;
    inr (textbook_record resource chapter 0.70)
  else if String.eqb resource_type "slides" then
    inr (slides_record resource 0.70)
  else if String.eqb resource_type "homework" then
    problems <~ _extract_problem_numbers w (title resource) ;;
    inr (homework_record resource problems 0.70)
  else inr (PyDict []).

Definition paper (t : string) (authors : list string) (u : string)
           (year : Z) (venue : string) (confidence : Q) : pyval :=
  PyDict [("title", PyStr t);
          ("authors", str_list authors);
          ("url", PyStr u);
          ("year", PyInt year);
          ("venue", PyStr venue);
          ("confidence", PyFloat confidence)].

Definition _get_fallback_papers : list pyval :=
  [ paper "The Linux Completely Fair Scheduler"
          ["Ingo Molnar"]
          "https://www.kernel.org/doc/Documentation/scheduler/sched-design-CFS.txt"
          2023 "Linux Kernel Documentation" 0.88;
    paper "Lottery Scheduling: Flexible Proportional-Share Resource Management"
          ["Carl A. Waldspurger"; "William E. Weihl"]
          "https://www.usenix.org/legacy/publications/library/proceedings/osdi/full_papers/waldspurger.pdf"
          1994 "OSDI" 0.85;
    paper "BFS vs CFS - Scheduler Comparison"
          ["Con Kolivas"]
          "https://ck-hack.blogspot.com/2013/10/bfs-vs-cfs-scheduler-comparison.html"
          2023 "Blog Post" 0.75 ].

Definition _get_fallback_data (week_number : Z) : WeekData :=
  {| week := week_number;
     topic := if Z.eqb week_number 3 then "Process Scheduling"
              else ("Week " ++ str_of_int week_number ++ " Topic")%string;
     resources :=
       {| textbook :=
            [ {| url := "https://example.com/silberschatz-ch5.pdf";
                 title := "Silberschatz Chapter 5" |};
              {| url := "https://example.com/tanenbaum-ch2.pdf";
                 title := "Tanenbaum Chapter 2" |} ];
          slides :=
            [ {| url := "https://example.com/week3-slides.pdf";
                 title := "Week 3 Lecture Slides" |} ];
          homework :=
            [ {| url := "https://example.com/ps3.pdf";
                 title := "Problem Set 3" |} ];
          papers := [] |} |}.

Section WithWorld.
Variable w : World.
Variable self : Self.

(** [requests.post(url, headers=..., json=..., timeout=...)] *)
Definition requests_post (rq : Request) : M Response :=
  fun n =>
    match w_post w n rq with
    | PostRaises e => (inl e, S n)
    | PostReturns r => (inr r, S n)
    end.

(** [self.session.get(url, timeout=t)] followed by
    [response.raise_for_status()], which raises an HTTPError (a
    RequestException) for a 4xx or 5xx status. *)
Definition session_get (u : string) (timeout : Z) : M (Z * node) :=
  match w_get w u timeout with
  | GetRaises msg => raise (RequestException msg)
  | GetReturns st soup => ret (st, soup)
  end.

Definition raise_for_status (response : Z * node) : M unit :=
  if (400 <=? fst response)%Z && (fst response <? 600)%Z
  then raise (RequestException "HTTPError")
  else ret tt.

(** *** [scrape_week]: the schedule table locator *)

Definition header_text (table : node) : string :=
  join " " (map (fun h => strip (get_text h)) (find_all ["th"] table)).

(** The first test of the loop body: a schedule-like header. *)
Definition has_schedule_header (table : node) : bool :=
  contains "Date" (header_text table)
  || contains "Lecture" (header_text table)
  || contains "Readings" (header_text table).

(** The second test of the loop body: a date in the first cell. *)
Definition first_cell_is_date (table : node) : bool :=
  match find ["tr"] table with
  | Some first_row =>
      match find_all ["td"; "th"] first_row with
      | first_cell :: _ =>
          matched (re_match false Patterns.short_date
                            (strip (get_text first_cell)))
      | [] => false
      end
  | None => false
  end.

(** [for i, table in enumerate(tables): ...], giving [schedule_table]. *)
Fixpoint locate_schedule_table (tables : list node) : option node :=
  match tables with
  | [] => None
  | table :: rest =>
      if has_schedule_header table then Some table
      else if first_cell_is_date table then Some table
      else locate_schedule_table rest
  end.

(** *** [scrape_week]: the topic row extractor *)

Definition row_text (cells : list node) : string :=
  join " " (map (fun cell => strip (get_text cell)) cells).

(** [for link in links: ...] *)
Fixpoint links_loop (links : list node) (resources : Resources)
  : M Resources :=
  match links with
  | [] => ret resources
  | link :: rest =>
      href <- tag_getitem link "href" ;;
      let text := strip (get_text link) in
      url <- (if negb (startswith href "http")
              then lift (w_urljoin w (course_url self) href)
              else ret href) ;;
      links_loop rest (_categorize_link url text resources)
  end.

(** [for i, row in enumerate(rows): ...], giving [found_topic] and the
    updated [week_data]. *)
Fixpoint rows_loop (rows : list node) (week_data : WeekData)
  : M (bool * WeekData) :=
  match rows with
  | [] => ret (false, week_data)
  | row :: rest =>
      let cells := find_all ["td"; "th"] row in
      if length cells <? 2 then rows_loop rest week_data
      else if matched (re_search true Patterns.semaphores_monitors
                                 (row_text cells))
      then
        lecture_cell <- (if 1 <? length cells then list_getitem cells 1
                         else list_getitem cells 0) ;;
        let topic' := strip (get_text lecture_cell) in
        let links := find_all_with ["a"] "href" row in
        resources' <- links_loop links (resources week_data) ;;
        ret (true, {| week := week week_data;
                      topic := topic';
                      resources := resources' |})
      else rows_loop rest week_data
  end.

Definition empty_resources : Resources :=
  {| textbook := []; slides := []; homework := []; papers := [] |}.

Definition scrape_week (week_number : Z) : M WeekData :=
  fetched <-
    try_except
      (response <- session_get (course_url self) 10 ;;
       _ <- raise_for_status response ;;
       ret (Some response))
      (fun e => if is_RequestException e then ret None else raise e) ;;
  match fetched with
  | None => ret (_get_fallback_data week_number)
  | Some response =>
      let soup := snd response in
      let week_data := {| week := week_number; topic := "";
                          resources := empty_resources |} in
      let tables := find_all ["table"] soup in
      match locate_schedule_table tables with
      | None => ret (_get_fallback_data week_number)
      | Some table =>
          let rows := find_all ["tr"] table in
          found <- rows_loop rows week_data ;;
          if negb (fst found) then ret (_get_fallback_data week_number)
          else ret (snd found)
      end
  end.

(** *** The enrichment adapter *)

Definition search_request (resource : Resource) (resource_type topic : string)
  : Request :=
  {| req_url := (PARALLEL_API_BASE ++ "/search")%string;
     req_headers :=
       PyDict [("x-api-key", pystr_opt (parallel_api_key self));
               ("Content-Type", PyStr "application/json")];
     req_json :=
       PyDict [("objective",
                PyStr ("Extract key concepts and summary from this "
                       ++ resource_type ++ " about " ++ topic ++ ": "
                       ++ url resource)%string);
               ("processor", PyStr "base");
               ("max_results", PyInt 3);
               ("max_chars_per_result", PyInt 1500)];
     req_timeout := 30 |}.

Definition _enrich_resource (resource : Resource)
           (resource_type topic : string) : M pyval :=
  try_except
    (response <- requests_post (search_request resource resource_type topic) ;;
     if Z.eqb (status_code response) 200 then
       result <- response_json response ;;
       if String.eqb resource_type "textbook" then
         chapter <- lift (_extract_chapter_number w (title resource)) ;;
         ret (textbook_record resource chapter 0.85)
       else if String.eqb resource_type "slides" then
         ret (slides_record resource 0.90)
       else if String.eqb resource_type "homework" then
         problems <- lift (_extract_problem_numbers w (title resource)) ;;
         ret (homework_record resource problems 0.85)
       else ret PyNone
     else lift (_basic_structure w resource resource_type))
    (fun e => lift (_basic_structure w resource resource_type)).

Definition _parse_parallel_papers (result : pyval) : list pyval :=
  _get_fallback_papers.

Definition task_input (topic : string) : string :=
  join newline
    [ ("Find 3-5 recent research papers (2020-2025) about " ++ topic
       ++ " in operating systems.")%string;
      "                    ";
      "                    For each paper, provide:";
      "                    - Title";
      "                    - Authors (list)";
      "                    - Year";
      "                    - Venue (conference or journal)";
      "                    - URL (arxiv, ACM, IEEE, or official paper URL)";
      "                    ";
      "                    Focus on semaphores, monitors, condition variables, synchronization, and concurrency." ].

Definition task_request (topic : string) : Request :=
  {| req_url := (PARALLEL_API_BASE ++ "/tasks/runs")%string;
     req_headers :=
       PyDict [("x-api-key", pystr_opt (parallel_api_key self));
               ("Content-Type", PyStr "application/json")];
     req_json :=
       PyDict [("input", PyStr (task_input topic));
               ("processor", PyStr "core");
               ("task_spec",
                PyDict [("output_schema", PyDict [("type", PyStr "auto")])])];
     req_timeout := 70 |}.

Definition _find_research_papers (topic : string) : M (list pyval) :=
  if negb (truthy_str (parallel_api_key self)) then ret _get_fallback_papers
  else
    try_except
      (response <- requests_post (task_request topic) ;;
       if Z.eqb (status_code response) 200 then
         result <- response_json response ;;
         let papers := _parse_parallel_papers result in
         ret (if truthy (PyList papers) then papers
              else _get_fallback_papers)
       else ret _get_fallback_papers)
      (fun e => ret _get_fallback_papers).

Definition _structure_for_output (week_data : WeekData) : exn + pyval :=
  textbooks <~ map_E (fun r => _basic_structure w r "textbook")
                     (textbook (resources week_data)) ;;
  slides' <~ map_E (fun r => _basic_structure w r "slides")
                   (slides (resources week_data)) ;;
  homework' <~ map_E (fun r => _basic_structure w r "homework")
                     (homework (resources week_data)) ;;
  inr (PyDict
         [("courseCode", PyStr "CSE 120");
          ("institution", PyStr "UCSD");
          ("weekNumber", PyInt (week week_data));
          ("weekTopic", PyStr (topic week_data));
          ("aggregatedContent",
           PyDict
             [("textbooks", PyList textbooks);
              ("slides", PyList slides');
              ("homework", PyList homework');
              ("papers", PyList _get_fallback_papers);
              ("parallelRunId",
               PyStr ("scrape-no-parallel-" ++ str_of_int (w_time w))%string);
              ("aggregatedAt", PyStr (w_strftime w))])]).

(** [for resource in ...: enriched = self._enrich_resource(...);
     if enriched: enriched_data[...].append(enriched)] *)
Fixpoint enrich_loop (resource_type topic : string)
         (todo : list Resource) (done : list pyval) : M (list pyval) :=
  match todo with
  | [] => ret done
  | resource :: rest =>
      enriched <- _enrich_resource resource resource_type topic ;;
      enrich_loop resource_type topic rest
        (if truthy enriched then done ++ [enriched] else done)
  end.

Definition enrich_with_parallel (week_data : WeekData) : M pyval :=
  if negb (truthy_str (parallel_api_key self))
  then lift (_structure_for_output week_data)
  else
    textbooks <- enrich_loop "textbook" (topic week_data)
                   (textbook (resources week_data)) [] ;;
    slides' <- enrich_loop "slides" (topic week_data)
                 (slides (resources week_data)) [] ;;
    homework' <- enrich_loop "homework" (topic week_data)
                   (homework (resources week_data)) [] ;;
    papers' <- _find_research_papers (topic week_data) ;;
    ret (PyDict
           [("courseCode", PyStr "CSE 120");
            ("institution", PyStr "UCSD");
            ("weekNumber", PyInt (week week_data));
            ("weekTopic", PyStr (topic week_data));
            ("aggregatedContent",
             PyDict
               [("textbooks", PyList textbooks);
                ("slides", PyList slides');
                ("homework", PyList homework');
                ("papers", PyList papers');
                ("parallelRunId",
                 PyStr ("scrape-" ++ str_of_int (w_time w))%string);
                ("aggregatedAt", PyStr (w_strftime w))])]).

End WithWorld.

End CSE120Scraper.

(** ** [main] *)

(** The parsed command line. *)
Record Args := {
  arg_week : Z;
  arg_output : string;
  arg_no_enrich : bool
}.

(** [main()], up to the document handed to [json.dump]; [env_key] is the
    value of the PARALLEL_API_KEY environment variable, if any. *)
Definition main (w : World) (env_key : option string) (args : Args) : M pyval :=
  let scraper := CSE120Scraper.__init__ env_key None in
  week_data <- CSE120Scraper.scrape_week w scraper (arg_week args) ;;
  if arg_no_enrich args
  then lift (CSE120Scraper._structure_for_output w week_data)
  else CSE120Scraper.enrich_with_parallel w scraper week_data.


(* ================================================================== *)
(** * Vocabulary of the properties, and the inputs of the examples *)

Import PyStr Re Bs4 CSE120Scraper.

Definition Category_eqb (a b : Category) : bool :=
  match a, b with
  | Textbook, Textbook | Slides, Slides
  | Homework, Homework | Papers, Papers => true
  | _, _ => false
  end.


(** *** The schedule table locator *)

(** Neither test of the locator's loop body holds for the table. *)
Definition passed_over (table : node) : bool :=
  negb (has_schedule_header table) && negb (first_cell_is_date table).

(** *** The topic row extractor *)

Definition cells_of (row : node) : list node := find_all ["td"; "th"] row.

(** The two tests a row has to pass, in the order of the loop body. *)
Definition qualifies (row : node) : bool :=
  negb (length (cells_of row) <? 2)
  && matched (re_search true Patterns.semaphores_monitors
                        (row_text (cells_of row))).

(** The (url, text) pair the loop over the links computes for an anchor,
    or the exception that ends the loop there: the one [urljoin] raises on
    an href that does not start with "http". *)
Definition link_pair (w : World) (self : Self) (link : node)
  : exn + (string * string) :=
  match get link "href" with
  | Some href =>
      if negb (startswith href "http")
      then url <~ w_urljoin w (course_url self) href ;;
           inr (url, strip (get_text link))
      else inr (href, strip (get_text link))
  | None => inl (KeyError "href")
  end.

(** The anchors of a row that carry an href, as (url, text) pairs in
    document order, or the first exception among them. *)
Definition row_links (w : World) (self : Self) (row : node)
  : exn + list (string * string) :=
  map_E (link_pair w self) (find_all_with ["a"] "href" row).

Definition categorize_all (links : list (string * string)) (r : Resources)
  : Resources :=
  fold_left (fun acc p => _categorize_link (fst p) (snd p) acc) links r.

(** How many Resources the four buckets hold. *)
Definition total (r : Resources) : nat :=
  length (textbook r) + length (slides r)
  + length (homework r) + length (papers r).

(** *** Inputs of the examples *)

Definition td (s : string) : node := Tag "td" [] [Text s].
Definition th (s : string) : node := Tag "th" [] [Text s].
Definition anchor (href text : string) : node :=
  Tag "a" [("href", href)] [Text text].

(** A table of office hours: no header cells, a date in its first cell. *)
Definition ex_hours_table : node :=
  Tag "table" []
      [ Tag "tr" [] [td "10/2"; td "Office hours moved to CSE 3140"] ].

(** A table of the course staff: no header cells, no date. *)
Definition ex_staff_table : node :=
  Tag "table" []
      [ Tag "tr" [] [td "Instructor"; td "Office"];
        Tag "tr" [] [td "TA"; td "Lab"] ].

Definition ex_topic_row : node :=
  Tag "tr" []
      [ td "10/14";
        td " Semaphores and Monitors ";
        Tag "td" []
            [ anchor "sema.pdf" "Slides";
              Tag "a" [("name", "top")] [Text "anchor without href"];
              anchor "https://example.org/ostep/ch31.html" "Ch. 31" ] ].

(** A single cell that names the topic. *)
Definition ex_banner_row : node :=
  Tag "tr" [] [ td "Semaphores and Monitors" ].

(** The schedule: header cells Date, Lecture, Readings. *)
Definition ex_schedule_table : node :=
  Tag "table" []
      [ Tag "tr" [] [th "Date"; th "Lecture"; th "Readings"];
        ex_banner_row;
        Tag "tr" [] [td "10/9"; td "Synchronization"; td ""];
        ex_topic_row ].

Definition ex_page : node :=
  Tag "html" [] [ Tag "body" [] [ex_hours_table; ex_schedule_table] ].

Definition ex_page_staff_first : node :=
  Tag "html" [] [ Tag "body" [] [ex_staff_table; ex_schedule_table] ].

(** A row that names the topic in its first cell and leaves the second
    cell empty. *)
Definition ex_row_empty_second_cell : node :=
  Tag "tr" [] [ td "Semaphores and Monitors"; td "" ].

(** [urljoin] for the hrefs of the examples: an href that opens an
    unclosed bracketed host raises, as it does in [urllib.parse]; the others
    are relative to the directory the course url names. *)
Definition ex_urljoin (base u : string) : exn + string :=
  if String.prefix "//[" u then inl (ValueError "Invalid IPv6 URL")
  else inr (base ++ u)%string.

(** A world in which the page fetch does [page] and the [k]-th POST does
    [post k], on an interpreter with the default cap of 4300 digits. *)
Definition ex_world (page : get_outcome) (post : nat -> post_outcome) : World :=
  {| w_get := fun _ _ => page;
     w_post := fun n _ => post n;
     w_urljoin := ex_urljoin;
     w_int_max_str_digits := 4300;
     w_time := 1762300800;
     w_strftime := "2025-11-05T00:00:00Z" |}.

Definition ex_self : Self := __init__ (Some "key-123") None.

Definition ex_week_data : WeekData :=
  {| week := 3; topic := ""; resources := empty_resources |}.

(** The network is down: the page fetch and every POST raise. *)
Definition ex_world_offline : World :=
  ex_world (GetRaises "connection timed out")
           (fun _ => PostRaises (RequestException "connection timed out")).

(** *** The enrichment adapter *)

(** The names under which [enrich_with_parallel] calls [_enrich_resource]. *)
Definition enriched_types : list string := ["textbook"; "slides"; "homework"].

(** The [k]-th POST of the run fails for the request [rq]: the call raises
    (a timeout is one of the exceptions of [requests]), or the status is not
    200, or the body of a 200 response does not decode. *)
Definition call_failed (w : World) (k : nat) (rq : Request) : bool :=
  match w_post w k rq with
  | PostRaises _ => true
  | PostReturns r =>
      negb (Z.eqb (status_code r) 200)
      || match json_body r with inl _ => true | inr _ => false end
  end.

(** Five slide decks, and a service that times out on the third request of
    the run and answers the others with 200. *)
Definition ex_five_slides : list Resource :=
  [ {| url := "https://example.org/l1.pdf"; title := "Lecture 1" |};
    {| url := "https://example.org/l2.pdf"; title := "Lecture 2" |};
    {| url := "https://example.org/l3.pdf"; title := "Lecture 3" |};
    {| url := "https://example.org/l4.pdf"; title := "Lecture 4" |};
    {| url := "https://example.org/l5.pdf"; title := "Lecture 5" |} ].

Definition ex_world_third_call_fails : World :=
  ex_world (GetRaises "connection timed out")
           (fun k => if Nat.eqb k 2
                     then PostRaises (RequestException "read timed out")
                     else PostReturns {| status_code := 200;
                                         json_body := inr (PyDict []) |}).

(** *** The output document *)

Definition top_level_keys : list string :=
  ["courseCode"; "institution"; "weekNumber"; "weekTopic"; "aggregatedContent"].


(** The document both assembling paths build, field by field. *)
Definition document (week_number : Z) (week_topic : string)
           (textbooks slides homework papers : list pyval)
           (run_id aggregated_at : string) : pyval :=
  PyDict
    [("courseCode", PyStr "CSE 120");
     ("institution", PyStr "UCSD");
     ("weekNumber", PyInt week_number);
     ("weekTopic", PyStr week_topic);
     ("aggregatedContent",
      PyDict
        [("textbooks", PyList textbooks);
         ("slides", PyList slides);
         ("homework", PyList homework);
         ("papers", PyList papers);
         ("parallelRunId", PyStr run_id);
         ("aggregatedAt", PyStr aggregated_at)])].

(** The page is fetched and holds the schedule; the default command line. *)
Definition ex_world_page_only : World :=
  ex_world (GetReturns 200 ex_page_staff_first)
           (fun _ => PostRaises (RequestException "connection refused")).

Definition ex_args : Args :=
  {| arg_week := 3; arg_output := "week3_real_data.json";
     arg_no_enrich := false |}.

(** *** [scrape_week] as a whole *)

(** The page [scrape_week] goes on with: none when [session.get] raises or
    [raise_for_status] does (a 4xx or 5xx status). *)
Definition fetched_page (w : World) (self : Self) : option node :=
  match w_get w (course_url self) 10 with
  | GetRaises _ => None
  | GetReturns st soup =>
      if (400 <=? st)%Z && (st <? 600)%Z then None else Some soup
  end.

(** The first row of the located table that passes both tests of the row
    loop, if the page has a schedule table and the table has such a row. *)
Definition topic_row (soup : node) : option node :=
  match locate_schedule_table (find_all ["table"] soup) with
  | None => None
  | Some table => List.find qualifies (find_all ["tr"] table)
  end.

(** *** The link categorizer, by category *)

(** The bucket [_categorize_link] appends to, read off its effect on empty
    buckets. *)
Definition category_of (u t : string) : Category :=
  let r := _categorize_link u t empty_resources in
  match textbook r, slides r, homework r with
  | _ :: _, _, _ => Textbook
  | [], _ :: _, _ => Slides
  | [], [], _ :: _ => Homework
  | [], [], [] => Papers
  end.

Definition resource_of (p : string * string) : Resource :=
  {| url := fst p; title := snd p |}.

(** *** The enriched records *)

(** A record without its confidence entry. *)
Definition without_confidence (v : pyval) : pyval :=
  match v with
  | PyDict d =>
      PyDict (filter (fun kv => negb (String.eqb (fst kv) "confidence")) d)
  | _ => v
  end.

(** The confidence [_enrich_resource] gives a record of the type after a
    call that succeeded. *)
Definition success_confidence (resource_type : string) : Q :=
  if String.eqb resource_type "slides" then 0.90%Q else 0.85%Q.

(** The resource type is none of the three the script enriches. *)
Definition unknown_type (resource_type : string) : bool :=
  forallb (fun known => negb (String.eqb resource_type known)) enriched_types.

(** A page whose only table has header cells but no row on the topic. *)
Definition ex_page_no_topic : node :=
  Tag "html" []
      [ Tag "table" []
            [ Tag "tr" [] [th "Date"; th "Lecture"];
              Tag "tr" [] [td "10/9"; td "Synchronization"] ] ].

Definition ex_world_no_topic : World :=
  ex_world (GetReturns 200 ex_page_no_topic)
           (fun _ => PostRaises (RequestException "connection refused")).

(** The server answers the page fetch with 503. *)
Definition ex_world_503 : World :=
  ex_world (GetReturns 503 ex_page_staff_first)
           (fun _ => PostReturns {| status_code := 200;
                                    json_body := inr (PyDict []) |}).

(** Every POST is answered with 200 and a JSON body. *)
Definition ex_world_online : World :=
  ex_world (GetReturns 200 ex_page_staff_first)
           (fun _ => PostReturns {| status_code := 200;
                                    json_body := inr (PyDict []) |}).

(** *** The heuristics of the records *)


(** *** The fallback papers, and inputs on which the script raises *)

(** The three literal records of [_get_fallback_papers], written out. *)
Definition fallback_paper_records : list pyval :=
  [ PyDict [("title", PyStr "The Linux Completely Fair Scheduler");
            ("authors", PyList [PyStr "Ingo Molnar"]);
            ("url", PyStr "https://www.kernel.org/doc/Documentation/scheduler/sched-design-CFS.txt");
            ("year", PyInt 2023);
            ("venue", PyStr "Linux Kernel Documentation");
            ("confidence", PyFloat 0.88)];
    PyDict [("title", PyStr "Lottery Scheduling: Flexible Proportional-Share Resource Management");
            ("authors", PyList [PyStr "Carl A. Waldspurger";
                                PyStr "William E. Weihl"]);
            ("url", PyStr "https://www.usenix.org/legacy/publications/library/proceedings/osdi/full_papers/waldspurger.pdf");
            ("year", PyInt 1994);
            ("venue", PyStr "OSDI");
            ("confidence", PyFloat 0.85)];
    PyDict [("title", PyStr "BFS vs CFS - Scheduler Comparison");
            ("authors", PyList [PyStr "Con Kolivas"]);
            ("url", PyStr "https://ck-hack.blogspot.com/2013/10/bfs-vs-cfs-scheduler-comparison.html");
            ("year", PyInt 2023);
            ("venue", PyStr "Blog Post");
            ("confidence", PyFloat 0.75)] ].

(** [n] times the digit 9. *)
Fixpoint nines (n : nat) : string :=
  match n with
  | O => EmptyString
  | S k => String "9" (nines k)
  end.

(** A textbook whose title names a chapter of 4301 digits. *)
Definition ex_long_chapter : Resource :=
  {| url := "https://example.org/book.pdf";
     title := ("Chapter " ++ nines 4301)%string |}.




(* ================================================================== *)
(** * Properties *)



(** ** The link categorizer *)

(** The buckets after [x] was appended to bucket [c]. *)
Lemma bucket_add_to (c c' : Category) (x : Resource) (r : Resources) :
  bucket c' (add_to c x r)
  = if Category_eqb c' c then bucket c' r ++ [x] else bucket c' r.
Proof. destruct c, c'; reflexivity. Qed.

(** Every path through [_categorize_link] ends in one [append], and which
    one depends on the url and the text alone. *)
Lemma categorize_is_add_to (u t : string) :
  exists c : Category,
    forall r, _categorize_link u t r = add_to c {| url := u; title := t |} r.
Proof.
  unfold _categorize_link; cbv zeta.
  repeat match goal with
         | |- context [if ?b then add_to _ _ _ else _] => destruct b
         end;
    eexists; intro; reflexivity.
Qed.

(** When the first test of [_categorize_link] holds the link is a textbook
    link, whatever the later tests say. *)
Lemma categorize_textbook_first (u t : string) (r : Resources) :
  matched (re_match false Patterns.ch_number (lower t))
  || contains "chapter" (lower t)
  || contains "textbook" (lower t)
  || contains "reading" (lower t) = true ->
  _categorize_link u t r = add_to Textbook {| url := u; title := t |} r.
Proof. intro H; unfold _categorize_link; cbv zeta; rewrite H; reflexivity. Qed.

(** C2: the categorizer is total, deterministic and mutually exclusive.  For
    every url and text there is one category [c], fixed by the url and the
    text alone, such that on any buckets the call appends the Resource to
    bucket [c] and leaves the three other buckets as they were; no other
    category has this property; and a second call with the same url and text
    picks the same bucket again. *)
Theorem categorize_total_exclusive_deterministic (u t : string) :
  exists c : Category,
    (forall (r : Resources) (c' : Category),
        bucket c' (_categorize_link u t r)
        = if Category_eqb c' c
          then bucket c' r ++ [{| url := u; title := t |}]
          else bucket c' r)
    /\ (forall d : Category,
           (forall r, bucket d (_categorize_link u t r)
                      = bucket d r ++ [{| url := u; title := t |}]) ->
           d = c)
    /\ (forall (r : Resources) (c' : Category),
           bucket c' (_categorize_link u t (_categorize_link u t r))
           = if Category_eqb c' c
             then bucket c' r ++ [{| url := u; title := t |};
                                  {| url := u; title := t |}]
             else bucket c' r).
Proof.
  destruct (categorize_is_add_to u t) as [c Hc].
  exists c; repeat split.
  - intros r c'; rewrite Hc; apply bucket_add_to.
  - intros d Hd.
    specialize (Hd empty_resources); rewrite Hc, bucket_add_to in Hd.
    destruct d, c; try reflexivity; discriminate Hd.
  - intros r c'; rewrite !Hc, !bucket_add_to.
    destruct (Category_eqb c' c); [ now rewrite <- app_assoc | reflexivity ].
Qed.

(** C3, as the code has it: the text "Homework Ch. 3" makes a homework link
    for any url, because [re.match] tries the chapter pattern at the start of
    the text only.  The textbook tests do come first: a text on which a
    textbook test and a homework test both hold ("Ch. 3 Homework",
    "Homework Chapter 3") makes a textbook link. *)
Theorem categorize_homework_ch3 (u : string) (r : Resources) :
  _categorize_link u "Homework Ch. 3" r
  = add_to Homework {| url := u; title := "Homework Ch. 3" |} r
  /\ matched (re_match false Patterns.ch_number (lower "Homework Ch. 3")) = false
  /\ matched (re_search false Patterns.ch_number (lower "Homework Ch. 3")) = true
  /\ _categorize_link u "Ch. 3 Homework" r
     = add_to Textbook {| url := u; title := "Ch. 3 Homework" |} r
  /\ _categorize_link u "Homework Chapter 3" r
     = add_to Textbook {| url := u; title := "Homework Chapter 3" |} r.
Proof.
  repeat split; try (vm_compute; reflexivity);
    apply categorize_textbook_first; vm_compute; reflexivity.
Qed.

(** C3, as the spec states it, fails: with the text "Homework Ch. 3" the link
    goes to the homework bucket and the textbook bucket stays empty. *)
Lemma categorize_homework_ch3_not_textbook :
  _categorize_link "https://cseweb.ucsd.edu/classes/fa25/cse120-a/hw3.html"
                   "Homework Ch. 3" empty_resources
  = {| textbook := [];
       slides := [];
       homework :=
         [ {| url := "https://cseweb.ucsd.edu/classes/fa25/cse120-a/hw3.html";
              title := "Homework Ch. 3" |} ];
       papers := [] |}.
Proof. vm_compute; reflexivity. Qed.

(** C8: with an empty text and the url "https://arxiv.org/abs/1234.pdf" the
    link is a papers link: the url contains "arxiv" and that test comes
    before the ".pdf" default, which the url would also meet and which alone
    makes a slides link (as for the same path on another host). *)
Theorem categorize_arxiv_pdf (r : Resources) :
  _categorize_link "https://arxiv.org/abs/1234.pdf" "" r
  = add_to Papers {| url := "https://arxiv.org/abs/1234.pdf"; title := "" |} r
  /\ contains "arxiv" (lower "https://arxiv.org/abs/1234.pdf") = true
  /\ contains ".pdf" (lower "https://arxiv.org/abs/1234.pdf") = true
  /\ _categorize_link "https://example.org/abs/1234.pdf" "" r
     = add_to Slides {| url := "https://example.org/abs/1234.pdf"; title := "" |} r.
Proof. repeat split; vm_compute; reflexivity. Qed.

(** ** The schedule table locator *)

Lemma date_header_is_schedule_header (t : node) :
  contains "Date" (header_text t) = true -> has_schedule_header t = true.
Proof. intro H; unfold has_schedule_header; rewrite H; reflexivity. Qed.

(** The loop stops at the first table that meets one of its two tests. *)
Lemma locate_first_match (pre post : list node) (t : node) :
  forallb passed_over pre = true ->
  has_schedule_header t || first_cell_is_date t = true ->
  locate_schedule_table (pre ++ t :: post) = Some t.
Proof.
  intros Hpre Ht; induction pre as [|u pre IH]; simpl.
  - destruct (has_schedule_header t); [reflexivity|].
    simpl in Ht; rewrite Ht; reflexivity.
  - simpl in Hpre; apply andb_true_iff in Hpre as [Hu Hpre].
    unfold passed_over in Hu; apply andb_true_iff in Hu as [Hu1 Hu2].
    apply negb_true_iff in Hu1, Hu2; rewrite Hu1, Hu2; auto.
Qed.

(** C4, as the code has it: a table whose header text contains "Date" is
    the one selected when every table before it in the document fails both
    tests of the loop (schedule header, date in the first cell). *)
Theorem locator_selects_date_header_table
        (soup : node) (pre post : list node) (t : node) :
  find_all ["table"] soup = pre ++ t :: post ->
  contains "Date" (header_text t) = true ->
  forallb passed_over pre = true ->
  locate_schedule_table (find_all ["table"] soup) = Some t.
Proof.
  intros Hsplit Hdate Hpre; rewrite Hsplit.
  apply locate_first_match; [assumption|].
  rewrite (date_header_is_schedule_header t Hdate); reflexivity.
Qed.

Lemma locator_selects_date_header_table_witness :
  locate_schedule_table (find_all ["table"] ex_page_staff_first)
  = Some ex_schedule_table.
Proof.
  apply (locator_selects_date_header_table
           ex_page_staff_first [ex_staff_table] [] ex_schedule_table);
    vm_compute; reflexivity.
Defined.

(** C4, as the spec states it, fails: the page holds a table with a "Date"
    header, and the locator selects the table before it, which has no header
    cell at all and whose first cell starts with a date. *)
Lemma locator_takes_earlier_date_cell_table :
  find_all ["table"] ex_page = [ex_hours_table; ex_schedule_table]
  /\ contains "Date" (header_text ex_schedule_table) = true
  /\ locate_schedule_table (find_all ["table"] ex_page) = Some ex_hours_table
  /\ header_text ex_hours_table = "".
Proof. repeat split; vm_compute; reflexivity. Qed.

(** ** The topic row extractor *)

Lemma rows_loop_cons (w : World) (self : Self) (row : node)
      (rest : list node) (week_data : WeekData) :
  rows_loop w self (row :: rest) week_data
  = let cells := find_all ["td"; "th"] row in
    if length cells <? 2 then rows_loop w self rest week_data
    else if matched (re_search true Patterns.semaphores_monitors
                               (row_text cells))
    then
      lecture_cell <- (if 1 <? length cells then list_getitem cells 1
                       else list_getitem cells 0) ;;
      let topic' := strip (get_text lecture_cell) in
      let links := find_all_with ["a"] "href" row in
      resources' <- links_loop w self links (resources week_data) ;;
      ret (true, {| week := week week_data;
                    topic := topic';
                    resources := resources' |})
    else rows_loop w self rest week_data.
Proof. reflexivity. Qed.

Lemma map_E_length {A B} (f : A -> exn + B) (l : list A) (ys : list B) :
  map_E f l = inr ys -> length ys = length l.
Proof.
  revert ys; induction l as [|x l IH]; intros ys H; cbn [map_E] in H.
  - injection H as <-; reflexivity.
  - unfold bind_E in H; destruct (f x) as [e | y]; [discriminate|].
    destruct (map_E f l) as [e | ys']; [discriminate|].
    injection H as <-; cbn [length]; now rewrite (IH ys' eq_refl).
Qed.

(** Every anchor that [find_all('a', href=True)] returns has an href, so
    [link['href']] does not raise; the loop over the links categorizes them
    one after the other, unless [urljoin] raises on one of them, and then
    the exception ends the loop. *)
Lemma links_loop_result (w : World) (self : Self) (links : list node) :
  forallb (has_attr "href") links = true ->
  forall (r : Resources) (n : nat),
    links_loop w self links r n
    = match map_E (link_pair w self) links with
      | inr pairs => (inr (categorize_all pairs r), n)
      | inl e => (inl e, n)
      end.
Proof.
  induction links as [|link links IH]; intros Hall r n; [reflexivity|].
  simpl in Hall; apply andb_true_iff in Hall as [Hl Hall].
  unfold has_attr in Hl.
  specialize (IH Hall); cbn [links_loop map_E].
  set (rest := map_E (link_pair w self) links) in *.
  unfold bind, tag_getitem, link_pair, bind_E.
  destruct (get link "href") as [href|]; [|discriminate Hl].
  unfold ret at 1; cbv beta iota zeta.
  destruct (negb (startswith href "http")).
  - unfold lift; destruct (w_urljoin w (course_url self) href) as [e | u];
      [reflexivity|].
    rewrite IH; destruct rest; reflexivity.
  - unfold ret at 1; rewrite IH; destruct rest; reflexivity.
Qed.

Lemma find_all_with_has_attr (names : list string) (k : string) (n : node) :
  forallb (has_attr k) (find_all_with names k n) = true.
Proof.
  unfold find_all_with; apply forallb_forall; intros x Hx.
  apply filter_In in Hx as [_ Hx]; apply andb_true_iff in Hx; tauto.
Qed.

(** A row that fails one of the two tests is passed over. *)
Lemma rows_loop_skip (w : World) (self : Self) (row : node)
      (rest : list node) (week_data : WeekData) :
  qualifies row = false ->
  rows_loop w self (row :: rest) week_data = rows_loop w self rest week_data.
Proof.
  unfold qualifies, cells_of; intro Hq; rewrite rows_loop_cons; cbv zeta.
  destruct (length (find_all ["td"; "th"] row) <? 2); [reflexivity|].
  simpl in Hq; rewrite Hq; reflexivity.
Qed.

(** A row that passes both tests has a second cell; the loop takes the
    topic from it and categorizes the anchors of the row, or ends with the
    exception that [urljoin] raised on one of them. *)
Lemma rows_loop_hit (w : World) (self : Self) (row : node)
      (rest : list node) (week_data : WeekData) (n : nat) :
  qualifies row = true ->
  exists c0 c1 more,
    cells_of row = c0 :: c1 :: more
    /\ (1 <? length (cells_of row)) = true
    /\ rows_loop w self (row :: rest) week_data n
       = match row_links w self row with
         | inr links =>
             (inr (true,
                   {| week := week week_data;
                      topic := strip (get_text c1);
                      resources := categorize_all links
                                                  (resources week_data) |}), n)
         | inl e => (inl e, n)
         end.
Proof.
  unfold qualifies; intro Hq; apply andb_true_iff in Hq as [Hlen Hre].
  apply negb_true_iff in Hlen.
  rewrite rows_loop_cons; cbv zeta; fold (cells_of row).
  rewrite Hlen, Hre.
  destruct (cells_of row) as [|c0 [|c1 more]] eqn:Hcells;
    try discriminate Hlen.
  exists c0, c1, more; repeat split.
  unfold bind; cbn [length Nat.ltb Nat.leb list_getitem nth_error ret].
  rewrite (links_loop_result w self _ (find_all_with_has_attr _ _ _)).
  unfold row_links; destruct (map_E _ _); reflexivity.
Qed.

Lemma rows_loop_none (w : World) (self : Self) (rows : list node)
      (week_data : WeekData) (n : nat) :
  forallb (fun r => negb (qualifies r)) rows = true ->
  rows_loop w self rows week_data n = (inr (false, week_data), n).
Proof.
  induction rows as [|row rows IH]; intro H; [reflexivity|].
  simpl in H; apply andb_true_iff in H as [Hr H].
  apply negb_true_iff in Hr; rewrite (rows_loop_skip _ _ _ _ _ Hr); auto.
Qed.

(** The rows before the first one that passes both tests play no part. *)
Lemma rows_loop_skip_prefix (w : World) (self : Self) (pre rest : list node)
      (wd : WeekData) (n : nat) :
  forallb (fun r => negb (qualifies r)) pre = true ->
  rows_loop w self (pre ++ rest) wd n = rows_loop w self rest wd n.
Proof.
  induction pre as [|r pre IH]; intro Hpre; [reflexivity|].
  simpl in Hpre; apply andb_true_iff in Hpre as [Hr Hpre].
  apply negb_true_iff in Hr.
  rewrite <- app_comm_cons, (rows_loop_skip _ _ _ _ _ Hr); auto.
Qed.

(** Categorizing a list of links puts every one of them in a bucket. *)
Lemma categorize_all_total (links : list (string * string)) (r : Resources) :
  total (categorize_all links r) = total r + length links.
Proof.
  revert r; induction links as [|p links IH]; intro r; simpl.
  - lia.
  - unfold categorize_all in *; simpl; rewrite IH.
    destruct (categorize_is_add_to (fst p) (snd p)) as [c Hc]; rewrite Hc.
    destruct c; unfold total; simpl; rewrite length_app; simpl; lia.
Qed.

Lemma categorize_all_keeps (links : list (string * string)) (r : Resources)
      (c : Category) (x : Resource) :
  In x (bucket c r) -> In x (bucket c (categorize_all links r)).
Proof.
  revert r; induction links as [|p links IH]; intros r Hx; [exact Hx|].
  unfold categorize_all in *; simpl; apply IH.
  destruct (categorize_is_add_to (fst p) (snd p)) as [d Hd].
  rewrite Hd, bucket_add_to.
  destruct (Category_eqb c d); [apply in_or_app; now left | exact Hx].
Qed.

Lemma categorize_all_complete (links : list (string * string)) (r : Resources)
      (p : string * string) :
  In p links ->
  exists c, In {| url := fst p; title := snd p |}
               (bucket c (categorize_all links r)).
Proof.
  revert r; induction links as [|q links IH]; intros r Hp; [destruct Hp|].
  destruct Hp as [-> | Hp].
  - destruct (categorize_is_add_to (fst p) (snd p)) as [c Hc].
    exists c; unfold categorize_all; simpl; apply categorize_all_keeps.
    rewrite Hc, bucket_add_to.
    destruct c; simpl; apply in_or_app; right; now left.
  - unfold categorize_all; simpl; apply (IH _ Hp).
Qed.

(** C5, as the code has it: the first row that has at least two cells and
    whose joined cell text matches the topic pattern (case-insensitive) is
    the one processed.  Every anchor of the row that carries an href is
    taken in document order; an href that does not start with "http" goes
    through [urljoin] with the course url.  If [urljoin] raises on one of
    them the exception leaves the loop and nothing is returned.  Otherwise
    the loop returns, without any request: the topic is the stripped text of
    the second cell of the row (which may be empty), the anchors have become
    (url, text) pairs, each pair is categorized, so each ends up in a bucket,
    and the buckets grow by exactly the number of such anchors. *)
Theorem extractor_first_qualifying_row
        (w : World) (self : Self) (pre post : list node) (row : node)
        (week_data : WeekData) (n : nat) :
  forallb (fun r => negb (qualifies r)) pre = true ->
  qualifies row = true ->
  exists c0 c1 more,
    cells_of row = c0 :: c1 :: more
    /\ match row_links w self row with
       | inl e => rows_loop w self (pre ++ row :: post) week_data n = (inl e, n)
       | inr links =>
           rows_loop w self (pre ++ row :: post) week_data n
           = (inr (true,
                   {| week := week week_data;
                      topic := strip (get_text c1);
                      resources := categorize_all links
                                                  (resources week_data) |}), n)
           /\ total (categorize_all links (resources week_data))
              = total (resources week_data)
                + length (find_all_with ["a"] "href" row)
           /\ (forall p, In p links ->
                 exists c, In {| url := fst p; title := snd p |}
                              (bucket c (categorize_all links
                                                        (resources week_data))))
       end.
Proof.
  intros Hpre Hrow.
  destruct (rows_loop_hit w self row post week_data n Hrow)
    as (c0 & c1 & more & Hcells & _ & Hloop).
  exists c0, c1, more; split; [exact Hcells|].
  rewrite (rows_loop_skip_prefix w self pre _ _ n Hpre), Hloop.
  destruct (row_links w self row) as [e | links] eqn:Hlinks; [reflexivity|].
  split; [reflexivity|]; split.
  - rewrite categorize_all_total; f_equal.
    exact (map_E_length _ _ _ Hlinks).
  - intros p Hp; now apply categorize_all_complete.
Qed.

Lemma extractor_first_qualifying_row_witness :
  exists c0 c1 more,
    cells_of ex_topic_row = c0 :: c1 :: more
    /\ rows_loop ex_world_offline ex_self
                 ([ Tag "tr" [] [th "Date"; th "Lecture"; th "Readings"];
                    ex_banner_row;
                    Tag "tr" [] [td "10/9"; td "Synchronization"; td ""] ]
                    ++ ex_topic_row :: [])
                 ex_week_data 0
       = (inr (true,
               {| week := 3;
                  topic := strip (get_text c1);
                  resources :=
                    {| textbook :=
                         [ {| url := "https://example.org/ostep/ch31.html";
                              title := "Ch. 31" |} ];
                       slides :=
                         [ {| url := "https://cseweb.ucsd.edu/classes/fa25/cse120-a/sema.pdf";
                              title := "Slides" |} ];
                       homework := [];
                       papers := [] |} |}), 0).
Proof.
  destruct (extractor_first_qualifying_row
              ex_world_offline ex_self
              [ Tag "tr" [] [th "Date"; th "Lecture"; th "Readings"];
                ex_banner_row;
                Tag "tr" [] [td "10/9"; td "Synchronization"; td ""] ]
              [] ex_topic_row ex_week_data 0 eq_refl eq_refl)
    as (c0 & c1 & more & Hcells & H).
  exists c0, c1, more; split; [exact Hcells|].
  exact (proj1 H).
Defined.

(** C5, as the spec states it, fails twice.  A row of two cells whose text
    matches the topic pattern is processed and gives the empty topic, the
    text of its second cell; and a row of one cell whose text matches the
    pattern is not processed at all. *)
Lemma extractor_empty_topic_and_skipped_row :
  matched (re_search true Patterns.semaphores_monitors
                     (row_text (cells_of ex_row_empty_second_cell))) = true
  /\ rows_loop ex_world_offline ex_self [ex_row_empty_second_cell]
               ex_week_data 0
     = (inr (true, {| week := 3; topic := "";
                      resources := empty_resources |}), 0)
  /\ matched (re_search true Patterns.semaphores_monitors
                        (row_text (cells_of ex_banner_row))) = true
  /\ rows_loop ex_world_offline ex_self [ex_banner_row] ex_week_data 0
     = (inr (false, ex_week_data), 0).
Proof. repeat split; vm_compute; reflexivity. Qed.

(** C10: a row is selected only if it has at least two cells, and the topic
    of a selected row is the stripped text of its second cell.  Whenever the
    loop over the rows reports a topic, the row it took is the first one that
    passes both tests, it has a second cell, the test [len(cells) > 1] that
    guards the first-cell alternative holds for it, and the topic is the text
    of that second cell. *)
Theorem extractor_topic_is_second_cell
        (w : World) (self : Self) (rows : list node)
        (week_data week_data' : WeekData) (n n' : nat) :
  rows_loop w self rows week_data n = (inr (true, week_data'), n') ->
  exists pre row post c0 c1 more,
    rows = pre ++ row :: post
    /\ forallb (fun r => negb (qualifies r)) pre = true
    /\ qualifies row = true
    /\ cells_of row = c0 :: c1 :: more
    /\ (length (cells_of row) <? 2) = false
    /\ (1 <? length (cells_of row)) = true
    /\ topic week_data' = strip (get_text c1).
Proof.
  induction rows as [|row rows IH]; intro H; [discriminate H|].
  destruct (qualifies row) eqn:Hq.
  - destruct (rows_loop_hit w self row rows week_data n Hq)
      as (c0 & c1 & more & Hcells & Hguard & Hloop).
    rewrite Hloop in H.
    destruct (row_links w self row) as [e | links]; [discriminate H|].
    injection H as <- _.
    exists [], row, rows, c0, c1, more; repeat split; try assumption.
    rewrite Hcells; reflexivity.
  - rewrite (rows_loop_skip _ _ _ _ _ Hq) in H.
    destruct (IH H) as (pre & r & post & c0 & c1 & more & -> & Hpre & Hrest).
    exists (row :: pre), r, post, c0, c1, more; repeat split; try tauto.
    simpl; rewrite Hq; exact Hpre.
Qed.

Lemma extractor_topic_is_second_cell_witness :
  exists pre row post c0 c1 more,
    find_all ["tr"] ex_schedule_table = pre ++ row :: post
    /\ forallb (fun r => negb (qualifies r)) pre = true
    /\ qualifies row = true
    /\ cells_of row = c0 :: c1 :: more
    /\ (length (cells_of row) <? 2) = false
    /\ (1 <? length (cells_of row)) = true
    /\ "Semaphores and Monitors" = strip (get_text c1).
Proof.
  apply (extractor_topic_is_second_cell
           ex_world_offline ex_self (find_all ["tr"] ex_schedule_table)
           ex_week_data
           {| week := 3; topic := "Semaphores and Monitors";
              resources :=
                match row_links ex_world_offline ex_self ex_topic_row with
                | inr links => categorize_all links empty_resources
                | inl _ => empty_resources
                end |} 0 0).
  vm_compute; reflexivity.
Defined.

(** ** [scrape_week] as a whole *)

Lemma links_loop_course_url (w : World) (self self' : Self)
      (links : list node) :
  course_url self = course_url self' ->
  forall (r : Resources) (n : nat),
    links_loop w self links r n = links_loop w self' links r n.
Proof.
  intro Hurl; induction links as [|link links IH]; intros r n; [reflexivity|].
  cbn [links_loop]; unfold bind.
  destruct (tag_getitem link "href" n) as [[e | href] n']; [reflexivity|].
  rewrite Hurl.
  destruct ((if negb (startswith href "http")
             then lift (w_urljoin w (course_url self') href)
             else ret href) n') as [[e | u] n'']; [reflexivity|].
  apply IH.
Qed.

Lemma rows_loop_course_url (w : World) (self self' : Self)
      (rows : list node) :
  course_url self = course_url self' ->
  forall (wd : WeekData) (n : nat),
    rows_loop w self rows wd n = rows_loop w self' rows wd n.
Proof.
  intro Hurl; induction rows as [|row rows IH]; intros wd n; [reflexivity|].
  rewrite !rows_loop_cons; cbv zeta.
  destruct (length (find_all ["td"; "th"] row) <? 2); [apply IH|].
  destruct (matched _); [|apply IH].
  unfold bind.
  destruct ((if 1 <? length (find_all ["td"; "th"] row)
             then list_getitem (find_all ["td"; "th"] row) 1
             else list_getitem (find_all ["td"; "th"] row) 0) n)
    as [[e | cell] n']; [reflexivity|].
  rewrite (links_loop_course_url w self self' _ Hurl); reflexivity.
Qed.

(** The part of [scrape_week] before the tables are looked at. *)
Lemma scrape_week_fetch (w : World) (self : Self) (week_number : Z) (n : nat) :
  scrape_week w self week_number n
  = match fetched_page w self with
    | None => (inr (_get_fallback_data week_number), n)
    | Some soup =>
        match locate_schedule_table (find_all ["table"] soup) with
        | None => (inr (_get_fallback_data week_number), n)
        | Some table =>
            match rows_loop w self (find_all ["tr"] table)
                            {| week := week_number; topic := "";
                               resources := empty_resources |} n with
            | (inl e, n') => (inl e, n')
            | (inr found, n') =>
                if negb (fst found)
                then (inr (_get_fallback_data week_number), n')
                else (inr (snd found), n')
            end
        end
    end.
Proof.
  unfold scrape_week, fetched_page, try_except, bind, session_get,
    raise_for_status, ret, raise.
  destruct (w_get w (course_url self) 10) as [msg | st soup];
    cbn [fst snd is_RequestException]; [reflexivity|].
  destruct ((400 <=? st)%Z && (st <? 600)%Z);
    cbn [fst snd is_RequestException]; [reflexivity|].
  destruct (locate_schedule_table (find_all ["table"] soup)); [|reflexivity].
  destruct (rows_loop w self _ _ n) as [[e | found] n']; [reflexivity|].
  destruct (negb (fst found)); reflexivity.
Qed.

(** [scrape_week] reads the course url of [self] and nothing else of it. *)
Lemma scrape_week_course_url (w : World) (self self' : Self)
      (week_number : Z) (n : nat) :
  course_url self = course_url self' ->
  scrape_week w self week_number n = scrape_week w self' week_number n.
Proof.
  intro Hurl; rewrite !scrape_week_fetch; unfold fetched_page; rewrite Hurl.
  destruct (w_get w (course_url self') 10) as [msg | st soup]; [reflexivity|].
  destruct ((400 <=? st)%Z && (st <? 600)%Z); [reflexivity|].
  destruct (locate_schedule_table (find_all ["table"] soup)); [|reflexivity].
  rewrite (rows_loop_course_url w self self' _ Hurl); reflexivity.
Qed.

Lemma find_none_forallb {A} (f : A -> bool) (l : list A) :
  List.find f l = None -> forallb (fun x => negb (f x)) l = true.
Proof.
  induction l as [|x l IH]; simpl; [reflexivity|].
  destruct (f x); [discriminate | exact IH].
Qed.

Lemma find_some_split {A} (f : A -> bool) (l : list A) (x : A) :
  List.find f l = Some x ->
  exists pre post,
    l = pre ++ x :: post
    /\ forallb (fun y => negb (f y)) pre = true
    /\ f x = true.
Proof.
  induction l as [|y l IH]; simpl; [discriminate|].
  destruct (f y) eqn:Hy.
  - intro H; injection H as ->; exists [], l; repeat split; assumption.
  - intro H; destruct (IH H) as (pre & post & -> & Hpre & Hx).
    exists (y :: pre), post; repeat split; [|assumption].
    simpl; rewrite Hy; exact Hpre.
Qed.

(** What the loop over the rows does, by the first row that passes both
    tests. *)
Lemma rows_loop_result (w : World) (self : Self) (rows : list node)
      (week_data : WeekData) (n : nat) :
  rows_loop w self rows week_data n
  = match List.find qualifies rows with
    | None => (inr (false, week_data), n)
    | Some row =>
        match row_links w self row with
        | inl e => (inl e, n)
        | inr links =>
            (inr (true,
                  {| week := week week_data;
                     topic := strip (get_text (nth 1 (cells_of row) (Text "")));
                     resources := categorize_all links
                                                 (resources week_data) |}), n)
        end
    end.
Proof.
  destruct (List.find qualifies rows) as [row|] eqn:Hfind.
  - destruct (find_some_split _ _ _ Hfind) as (pre & post & -> & Hpre & Hq).
    destruct (rows_loop_hit w self row post week_data n Hq)
      as (c0 & c1 & more & Hcells & _ & Hloop).
    rewrite (rows_loop_skip_prefix w self pre _ _ n Hpre), Hloop, Hcells.
    reflexivity.
  - apply rows_loop_none, find_none_forallb, Hfind.
Qed.

(** What [scrape_week] does, by what the fetch gives and what the page
    holds. *)
Lemma scrape_week_result (w : World) (self : Self) (week_number : Z)
      (n : nat) :
  scrape_week w self week_number n
  = match fetched_page w self with
    | None => (inr (_get_fallback_data week_number), n)
    | Some soup =>
        match topic_row soup with
        | None => (inr (_get_fallback_data week_number), n)
        | Some row =>
            match row_links w self row with
            | inl e => (inl e, n)
            | inr links =>
                (inr {| week := week_number;
                        topic := strip (get_text
                                          (nth 1 (cells_of row) (Text "")));
                        resources := categorize_all links empty_resources |},
                 n)
            end
        end
    end.
Proof.
  rewrite scrape_week_fetch; unfold topic_row.
  destruct (fetched_page w self) as [soup|]; [|reflexivity].
  destruct (locate_schedule_table (find_all ["table"] soup)) as [table|];
    [|reflexivity].
  rewrite rows_loop_result.
  destruct (List.find qualifies (find_all ["tr"] table)) as [row|];
    [|reflexivity].
  destruct (row_links w self row); reflexivity.
Qed.

(** ** The enrichment adapter *)

(** The heuristic record of an enriched type, when it can be built: a
    non-empty dict that carries the url of the resource and the confidence
    0.70. *)
Lemma basic_structure_record (w : World) (r : Resource) (ty : string)
      (b : pyval) :
  In ty enriched_types ->
  _basic_structure w r ty = inr b ->
  truthy b = true
  /\ dict_get b "url" = Some (PyStr (url r))
  /\ dict_get b "confidence" = Some (PyFloat 0.70).
Proof.
  intros [<- | [<- | [<- | []]]]; unfold _basic_structure;
    cbn [String.eqb Ascii.eqb Bool.eqb andb]; unfold bind_E.
  - destruct (_extract_chapter_number w (title r)); [discriminate|].
    intro H; injection H as <-; repeat split.
  - intro H; injection H as <-; repeat split.
  - destruct (_extract_problem_numbers w (title r)); [discriminate|].
    intro H; injection H as <-; repeat split.
Qed.

Ltac run_post w k rq :=
  unfold try_except, bind, requests_post, response_json, call_failed, lift;
  destruct (w_post w k rq) as [e | [st [e | body]]];
  cbn [status_code json_body];
  [ | destruct (Z.eqb st 200) .. ].

(** One call of [_enrich_resource] for an enriched type issues exactly one
    POST.  If the heuristics of the record raise, so does the call, with the
    same exception and whatever the service answered: inside [try] the
    exception is caught, and the handler runs into it again.  Otherwise the
    call returns a non-empty record for the resource, which is the heuristic
    record up to its confidence, and the heuristic record itself when the
    POST failed. *)
Lemma enrich_resource_cases (w : World) (self : Self) (r : Resource)
      (ty about : string) (k : nat) :
  In ty enriched_types ->
  match _basic_structure w r ty with
  | inl e => _enrich_resource w self r ty about k = (inl e, S k)
  | inr b =>
      exists v,
        _enrich_resource w self r ty about k = (inr v, S k)
        /\ truthy v = true
        /\ dict_get v "url" = Some (PyStr (url r))
        /\ without_confidence v = without_confidence b
        /\ dict_get v "confidence"
           = Some (PyFloat (if call_failed w k (search_request self r ty about)
                            then 0.70%Q else success_confidence ty))
        /\ (call_failed w k (search_request self r ty about) = true -> v = b)
  end.
Proof.
  intros [<- | [<- | [<- | []]]]; unfold _enrich_resource, _basic_structure;
    cbn [String.eqb Ascii.eqb Bool.eqb andb]; unfold bind_E.
  - destruct (_extract_chapter_number w (title r)) as [err | chapter];
      run_post w k (search_request self r "textbook" about);
      first [ reflexivity
            | eexists; split; [reflexivity|]; repeat split; discriminate ].
  - run_post w k (search_request self r "slides" about);
      (eexists; split; [reflexivity|]; repeat split; discriminate).
  - destruct (_extract_problem_numbers w (title r)) as [err | problems];
      run_post w k (search_request self r "homework" about);
      first [ reflexivity
            | eexists; split; [reflexivity|]; repeat split; discriminate ].
Qed.

Lemma enrich_loop_cons (w : World) (self : Self) (ty topic : string)
      (resource : Resource) (rest : list Resource) (done : list pyval) :
  enrich_loop w self ty topic (resource :: rest) done
  = (enriched <- _enrich_resource w self resource ty topic ;;
     enrich_loop w self ty topic rest
       (if truthy enriched then done ++ [enriched] else done)).
Proof. reflexivity. Qed.

(** The loop over the resources of one enriched type.  If the heuristic
    record of some resource cannot be built the loop raises what the
    heuristics raise.  Otherwise it returns, after one POST per resource,
    with one more record per resource appended in the order of the input;
    the record at position [i] is what [_enrich_resource] returned for the
    [i]-th resource, it is the heuristic record up to its confidence, and
    the heuristic record itself when its POST failed. *)
Lemma enrich_loop_cases (w : World) (self : Self) (ty about : string) :
  In ty enriched_types ->
  forall (todo : list Resource) (done : list pyval) (n : nat),
  match map_E (fun r => _basic_structure w r ty) todo with
  | inl e => exists n', enrich_loop w self ty about todo done n = (inl e, n')
  | inr basics =>
      exists out,
        enrich_loop w self ty about todo done n
        = (inr (done ++ out), n + length todo)
        /\ length out = length todo
        /\ map without_confidence out = map without_confidence basics
        /\ forall i r,
            nth_error todo i = Some r ->
            exists v,
              nth_error out i = Some v
              /\ _enrich_resource w self r ty about (n + i)
                 = (inr v, S (n + i))
              /\ dict_get v "url" = Some (PyStr (url r))
              /\ (call_failed w (n + i) (search_request self r ty about)
                  = true ->
                  _basic_structure w r ty = inr v
                  /\ dict_get v "confidence" = Some (PyFloat 0.70))
  end.
Proof.
  intro Hty; induction todo as [|r todo IH]; intros done n.
  - cbn [map_E]; exists []; rewrite app_nil_r, Nat.add_0_r; repeat split.
    intros [|i] x Hx; discriminate Hx.
  - cbn [map_E]; unfold bind_E; rewrite enrich_loop_cons; unfold bind.
    pose proof (enrich_resource_cases w self r ty about n Hty) as Hcall.
    destruct (_basic_structure w r ty) as [e | b] eqn:Hb.
    + rewrite Hcall; exists (S n); reflexivity.
    + destruct Hcall as (v & Hcall & Htruthy & Hurl & Hwc & Hconf & Hfail).
      rewrite Hcall, Htruthy.
      specialize (IH (done ++ [v]) (S n)).
      destruct (map_E (fun r => _basic_structure w r ty) todo)
        as [e | basics].
      * exact IH.
      * destruct IH as (out & Hloop & Hlen & Hmap & Hnth).
        exists (v :: out); split; [|split; [|split]].
        -- rewrite Hloop, <- app_assoc; simpl; f_equal; lia.
        -- simpl; now rewrite Hlen.
        -- cbn [map]; now rewrite Hwc, Hmap.
        -- intros [|i] x Hx; simpl in Hx.
           ++ injection Hx as <-; exists v; rewrite Nat.add_0_r.
              split; [reflexivity|]; do 2 (split; [assumption|]).
              intro Hf; rewrite Hf in Hconf; rewrite Hb, <- (Hfail Hf).
              split; [reflexivity | exact Hconf].
           ++ destruct (Hnth i x Hx) as (v' & H1 & H2 & H3 & H4).
              exists v'; replace (n + S i) with (S n + i) by lia.
              do 3 (split; [assumption|]); exact H4.
Qed.

(** ** Assembling the output document *)

(** Whatever the task endpoint does, the papers are the fallback list. *)
Lemma find_research_papers_fallback (w : World) (self : Self)
      (topic : string) (n : nat) :
  exists n',
    _find_research_papers w self topic n = (inr _get_fallback_papers, n').
Proof.
  unfold _find_research_papers.
  destruct (truthy_str (parallel_api_key self)); cbn [negb];
    [ | eexists; reflexivity ].
  run_post w n (task_request self topic); eexists; reflexivity.
Qed.

Lemma find_research_papers_one_post (w : World) (self : Self)
      (topic : string) (n : nat) :
  truthy_str (parallel_api_key self) = true ->
  _find_research_papers w self topic n = (inr _get_fallback_papers, S n).
Proof.
  intro Hkey; unfold _find_research_papers; rewrite Hkey; cbn [negb].
  run_post w n (task_request self topic); reflexivity.
Qed.

Lemma structure_for_output_cases (w : World) (week_data : WeekData) :
  _structure_for_output w week_data
  = (tb <~ map_E (fun r => _basic_structure w r "textbook")
                 (textbook (resources week_data)) ;;
     sl <~ map_E (fun r => _basic_structure w r "slides")
                 (slides (resources week_data)) ;;
     hw <~ map_E (fun r => _basic_structure w r "homework")
                 (homework (resources week_data)) ;;
     inr (document (week week_data) (topic week_data) tb sl hw
                   _get_fallback_papers
                   ("scrape-no-parallel-" ++ str_of_int (w_time w))%string
                   (w_strftime w))).
Proof. reflexivity. Qed.

(** When [_structure_for_output] returns, the heuristic records of the
    three buckets could all be built, and the document holds them. *)
Lemma structure_for_output_inr (w : World) (week_data : WeekData)
      (d : pyval) :
  _structure_for_output w week_data = inr d ->
  exists tb sl hw,
    map_E (fun r => _basic_structure w r "textbook")
          (textbook (resources week_data)) = inr tb
    /\ map_E (fun r => _basic_structure w r "slides")
             (slides (resources week_data)) = inr sl
    /\ map_E (fun r => _basic_structure w r "homework")
             (homework (resources week_data)) = inr hw
    /\ d = document (week week_data) (topic week_data) tb sl hw
                    _get_fallback_papers
                    ("scrape-no-parallel-" ++ str_of_int (w_time w))%string
                    (w_strftime w).
Proof.
  rewrite structure_for_output_cases; unfold bind_E.
  destruct (map_E _ (textbook _)) as [e | tb]; [discriminate|].
  destruct (map_E _ (slides _)) as [e | sl]; [discriminate|].
  destruct (map_E _ (homework _)) as [e | hw]; [discriminate|].
  intro H; injection H as <-; exists tb, sl, hw; repeat split.
Qed.

(** [enrich_with_parallel] against [_structure_for_output] on the same week
    data.  If the latter raises so does the former, with the same exception.
    If the latter returns a document so does the former, and the two
    documents differ at most in the run identifier and in the confidences
    of the textbook, slides and homework records. *)
Lemma enrich_with_parallel_cases (w : World) (self : Self)
      (week_data : WeekData) (n : nat) :
  match _structure_for_output w week_data with
  | inl e => exists n', enrich_with_parallel w self week_data n = (inl e, n')
  | inr d =>
      exists tb sl hw run_id n',
        enrich_with_parallel w self week_data n
        = (inr (document (week week_data) (topic week_data)
                         tb sl hw _get_fallback_papers
                         run_id (w_strftime w)), n')
        /\ exists tb0 sl0 hw0 run_id0,
            d = document (week week_data) (topic week_data)
                         tb0 sl0 hw0 _get_fallback_papers
                         run_id0 (w_strftime w)
            /\ map without_confidence tb = map without_confidence tb0
            /\ map without_confidence sl = map without_confidence sl0
            /\ map without_confidence hw = map without_confidence hw0
            /\ length tb = length (textbook (resources week_data))
            /\ length sl = length (slides (resources week_data))
            /\ length hw = length (homework (resources week_data))
  end.
Proof.
  unfold enrich_with_parallel.
  destruct (truthy_str (parallel_api_key self)); cbn [negb].
  - rewrite structure_for_output_cases; unfold bind_E, bind.
    pose proof (enrich_loop_cases w self "textbook" (topic week_data)
                  (or_introl eq_refl) (textbook (resources week_data)) [] n)
      as H1.
    destruct (map_E _ (textbook _)) as [e | tb0].
    { destruct H1 as (n' & ->); exists n'; reflexivity. }
    destruct H1 as (tb & -> & L1 & E1 & _); cbn [app].
    pose proof (enrich_loop_cases w self "slides" (topic week_data)
                  (or_intror (or_introl eq_refl))
                  (slides (resources week_data)) []
                  (n + length (textbook (resources week_data)))) as H2.
    destruct (map_E _ (slides _)) as [e | sl0].
    { destruct H2 as (n' & ->); exists n'; reflexivity. }
    destruct H2 as (sl & -> & L2 & E2 & _); cbn [app].
    pose proof (enrich_loop_cases w self "homework" (topic week_data)
                  (or_intror (or_intror (or_introl eq_refl)))
                  (homework (resources week_data)) []
                  (n + length (textbook (resources week_data))
                   + length (slides (resources week_data)))) as H3.
    destruct (map_E _ (homework _)) as [e | hw0].
    { destruct H3 as (n' & ->); exists n'; reflexivity. }
    destruct H3 as (hw & -> & L3 & E3 & _); cbn [app].
    destruct (find_research_papers_fallback w self (topic week_data)
                (n + length (textbook (resources week_data))
                 + length (slides (resources week_data))
                 + length (homework (resources week_data))))
      as (n' & ->).
    exists tb, sl, hw, ("scrape-" ++ str_of_int (w_time w))%string, n'.
    split; [reflexivity|].
    exists tb0, sl0, hw0,
      ("scrape-no-parallel-" ++ str_of_int (w_time w))%string.
    repeat split; assumption.
  - unfold lift.
    destruct (_structure_for_output w week_data) as [e | d] eqn:Hd.
    + exists n; reflexivity.
    + destruct (structure_for_output_inr w week_data d Hd)
        as (tb & sl & hw & M1 & M2 & M3 & ->).
      exists tb, sl, hw,
        ("scrape-no-parallel-" ++ str_of_int (w_time w))%string, n.
      split; [reflexivity|].
      exists tb, sl, hw,
        ("scrape-no-parallel-" ++ str_of_int (w_time w))%string.
      repeat split;
        first [ exact (map_E_length _ _ _ M1)
              | exact (map_E_length _ _ _ M2)
              | exact (map_E_length _ _ _ M3) ].
Qed.

(** [main], by what [scrape_week] and [_structure_for_output] do.  An
    exception of either is an exception of [main]; otherwise [main] hands a
    document to [json.dump]. *)
Lemma main_cases (w : World) (env_key : option string) (args : Args)
      (n : nat) :
  match scrape_week w (__init__ env_key None) (arg_week args) n with
  | (inl e, n1) => main w env_key args n = (inl e, n1)
  | (inr week_data, n1) =>
      match _structure_for_output w week_data with
      | inl e => exists n', main w env_key args n = (inl e, n')
      | inr _ =>
          exists tb sl hw run_id n',
            main w env_key args n
            = (inr (document (week week_data) (topic week_data)
                             tb sl hw _get_fallback_papers
                             run_id (w_strftime w)), n')
      end
  end.
Proof.
  unfold main, bind.
  destruct (scrape_week w (__init__ env_key None) (arg_week args) n)
    as [[e | wd] n1]; [reflexivity|].
  destruct (arg_no_enrich args).
  - unfold lift.
    destruct (_structure_for_output w wd) as [e | d] eqn:Hd.
    + exists n1; reflexivity.
    + destruct (structure_for_output_inr w wd d Hd)
        as (tb & sl & hw & _ & _ & _ & ->).
      do 4 eexists; exists n1; reflexivity.
  - pose proof (enrich_with_parallel_cases w (__init__ env_key None) wd n1)
      as H.
    destruct (_structure_for_output w wd) as [e | d]; [exact H|].
    destruct H as (tb & sl & hw & id & n' & H & _).
    exists tb, sl, hw, id, n'; exact H.
Qed.

(** Whenever [main] returns, it returns a document built from the week data
    that [scrape_week] returned. *)
Lemma main_inr (w : World) (env_key : option string) (args : Args)
      (n : nat) (out : pyval) (n' : nat) :
  main w env_key args n = (inr out, n') ->
  exists week_data tb sl hw run_id,
    scrape_week w (__init__ env_key None) (arg_week args) n
    = (inr week_data, n)
    /\ out = document (week week_data) (topic week_data)
                      tb sl hw _get_fallback_papers
                      run_id (w_strftime w).
Proof.
  intro H; pose proof (main_cases w env_key args n) as Hc.
  pose proof (scrape_week_result w (__init__ env_key None) (arg_week args) n)
    as Hs.
  destruct (scrape_week w (__init__ env_key None) (arg_week args) n)
    as [[e | wd] n1] eqn:Hscrape.
  - rewrite Hc in H; discriminate H.
  - assert (n1 = n) as ->.
    { destruct (fetched_page w _) as [soup|]; [|now injection Hs].
      destruct (topic_row soup) as [row|]; [|now injection Hs].
      destruct (row_links w _ row); now injection Hs. }
    destruct (_structure_for_output w wd) as [e | d].
    + destruct Hc as (n2 & Hc); rewrite Hc in H; discriminate H.
    + destruct Hc as (tb & sl & hw & id & n2 & Hc).
      rewrite Hc in H; injection H as <- _.
      exists wd, tb, sl, hw, id; split; reflexivity.
Qed.

Lemma document_keys (wk : Z) (tp : string) (tb sl hw pp : list pyval)
      (id ts : string) :
  keys (document wk tp tb sl hw pp id ts) = top_level_keys
  /\ dict_get (document wk tp tb sl hw pp id ts) "aggregatedContent"
     = Some (PyDict [("textbooks", PyList tb); ("slides", PyList sl);
                     ("homework", PyList hw); ("papers", PyList pp);
                     ("parallelRunId", PyStr id);
                     ("aggregatedAt", PyStr ts)]).
Proof. split; reflexivity. Qed.


(** C1, as the code has it.  For each of the three enriched types and a
    list of resources whose heuristic records can all be built, the loop
    that enriches the list returns without raising, one POST per resource,
    with exactly one record per input resource in input order; each record
    is the one [_enrich_resource] returned for its resource, and whenever
    the external call for a resource failed (exception or timeout, status
    other than 200, undecodable body) the record is the heuristic one built
    locally, whose confidence is 0.70.  When the heuristic record of some
    resource cannot be built ([int] refuses a number of the title), the
    exception of the heuristics leaves [_enrich_resource] and the loop.
    Accordingly [enrich_with_parallel] returns to its caller whenever
    [_structure_for_output] does on the same week data, with as many
    textbook, slides and homework records as the week data has resources in
    these buckets. *)
Theorem enrichment_batch_survives_call_failures
        (w : World) (self : Self) (ty about : string)
        (todo : list Resource) (n : nat) :
  In ty enriched_types ->
  match map_E (fun r => _basic_structure w r ty) todo with
  | inl e => exists n', enrich_loop w self ty about todo [] n = (inl e, n')
  | inr _ =>
      exists out,
        enrich_loop w self ty about todo [] n = (inr out, n + length todo)
        /\ length out = length todo
        /\ forall i r,
            nth_error todo i = Some r ->
            exists v,
              nth_error out i = Some v
              /\ _enrich_resource w self r ty about (n + i)
                 = (inr v, S (n + i))
              /\ dict_get v "url" = Some (PyStr (url r))
              /\ (call_failed w (n + i) (search_request self r ty about)
                  = true ->
                  _basic_structure w r ty = inr v
                  /\ dict_get v "confidence" = Some (PyFloat 0.70))
  end
  /\ (forall (week_data : WeekData) (k : nat) (d : pyval),
         _structure_for_output w week_data = inr d ->
         exists tb sl hw run_id k',
           enrich_with_parallel w self week_data k
           = (inr (document (week week_data) (topic week_data)
                            tb sl hw _get_fallback_papers
                            run_id (w_strftime w)), k')
           /\ length tb = length (textbook (resources week_data))
           /\ length sl = length (slides (resources week_data))
           /\ length hw = length (homework (resources week_data))).
Proof.
  intro Hty; split.
  - pose proof (enrich_loop_cases w self ty about Hty todo [] n) as H.
    destruct (map_E (fun r => _basic_structure w r ty) todo) as [e | basics];
      [exact H|].
    destruct H as (out & Hloop & Hlen & _ & Hnth).
    exists out; repeat split; assumption.
  - intros week_data k d Hd.
    pose proof (enrich_with_parallel_cases w self week_data k) as H.
    rewrite Hd in H.
    destruct H as (tb & sl & hw & id & k' & H & tb0 & sl0 & hw0 & id0
                   & _ & _ & _ & _ & L1 & L2 & L3).
    exists tb, sl, hw, id, k'; repeat split; assumption.
Qed.

Lemma enrichment_batch_survives_call_failures_witness :
  exists out,
    enrich_loop ex_world_third_call_fails ex_self "slides"
                "Semaphores and Monitors" ex_five_slides [] 0
    = (inr out, 0 + length ex_five_slides)
    /\ length out = length ex_five_slides
    /\ forall i r,
        nth_error ex_five_slides i = Some r ->
        exists v,
          nth_error out i = Some v
          /\ _enrich_resource ex_world_third_call_fails ex_self r "slides"
                              "Semaphores and Monitors" (0 + i)
             = (inr v, S (0 + i))
          /\ dict_get v "url" = Some (PyStr (url r))
          /\ (call_failed ex_world_third_call_fails (0 + i)
                          (search_request ex_self r "slides"
                                          "Semaphores and Monitors") = true ->
              _basic_structure ex_world_third_call_fails r "slides" = inr v
              /\ dict_get v "confidence" = Some (PyFloat 0.70)).
Proof.
  exact (proj1 (enrichment_batch_survives_call_failures
                  ex_world_third_call_fails ex_self "slides"
                  "Semaphores and Monitors" ex_five_slides 0
                  (or_intror (or_introl eq_refl)))).
Defined.

(** The heuristic record of a textbook whose title names a chapter of 4301
    digits cannot be built where [int] converts 4300 digits at most. *)
Lemma basic_structure_long_chapter (page : get_outcome)
      (post : nat -> post_outcome) :
  _basic_structure (ex_world page post) ex_long_chapter "textbook"
  = inl (ValueError "Exceeds the limit for integer string conversion").
Proof. vm_compute; reflexivity. Qed.

(** C1, as the spec states it, fails: the POST for a textbook whose title
    names a chapter of 4301 digits raises, the exception is caught, the
    handler calls the heuristics, [int] raises a ValueError, and this one
    leaves [_enrich_resource], the loop and [enrich_with_parallel]: there is
    no record for the resource. *)
Lemma enrichment_raises_on_a_long_chapter_number :
  call_failed ex_world_offline 0
              (search_request ex_self ex_long_chapter "textbook"
                              "Semaphores and Monitors") = true
  /\ _enrich_resource ex_world_offline ex_self ex_long_chapter "textbook"
                      "Semaphores and Monitors" 0
     = (inl (ValueError "Exceeds the limit for integer string conversion"), 1)
  /\ enrich_loop ex_world_offline ex_self "textbook"
                 "Semaphores and Monitors" [ex_long_chapter] [] 0
     = (inl (ValueError "Exceeds the limit for integer string conversion"), 1)
  /\ enrich_with_parallel ex_world_offline ex_self
       {| week := 3; topic := "Semaphores and Monitors";
          resources := {| textbook := [ex_long_chapter]; slides := [];
                          homework := []; papers := [] |} |} 0
     = (inl (ValueError "Exceeds the limit for integer string conversion"), 1).
Proof.
  pose proof (enrich_resource_cases ex_world_offline ex_self ex_long_chapter
                "textbook" "Semaphores and Monitors" 0 (or_introl eq_refl))
    as H.
  unfold ex_world_offline in *; rewrite basic_structure_long_chapter in H.
  split; [reflexivity|]; split; [exact H|]; split.
  - rewrite enrich_loop_cons; unfold bind; rewrite H; reflexivity.
  - unfold enrich_with_parallel; cbn [negb truthy_str ex_self __init__ py_or
      parallel_api_key String.eqb Ascii.eqb Bool.eqb andb resources textbook
      topic].
    unfold bind; rewrite enrich_loop_cons; unfold bind; rewrite H.
    reflexivity.
Qed.

(** C6: with no API key in the environment (unset or empty) and without
    --no-enrich, [main] takes the non-enriched path and issues no POST.
    Whenever it produces a document, the papers of its aggregatedContent are
    exactly the three static fallback records (the Linux Completely Fair
    Scheduler, Lottery Scheduling, BFS vs CFS), so a non-empty list; and it
    produces the document of [_structure_for_output] whenever [scrape_week]
    returns week data on which [_structure_for_output] returns. *)
Theorem no_key_papers_are_the_fallback_papers
        (w : World) (env_key : option string) (args : Args) (n : nat) :
  truthy_str env_key = false ->
  arg_no_enrich args = false ->
  (forall out n',
      main w env_key args n = (inr out, n') ->
      n' = n
      /\ exists content,
          dict_get out "aggregatedContent" = Some content
          /\ dict_get content "papers" = Some (PyList fallback_paper_records))
  /\ (forall week_data d,
         scrape_week w (__init__ env_key None) (arg_week args) n
         = (inr week_data, n) ->
         _structure_for_output w week_data = inr d ->
         main w env_key args n = (inr d, n))
  /\ map (fun p => dict_get p "title") fallback_paper_records
     = [ Some (PyStr "The Linux Completely Fair Scheduler");
         Some (PyStr "Lottery Scheduling: Flexible Proportional-Share Resource Management");
         Some (PyStr "BFS vs CFS - Scheduler Comparison") ]
  /\ length fallback_paper_records = 3.
Proof.
  intros Hkey Hflag.
  assert (Hmain : main w env_key args n
                  = match scrape_week w (__init__ env_key None)
                                      (arg_week args) n with
                    | (inl e, n1) => (inl e, n1)
                    | (inr wd, n1) => (_structure_for_output w wd, n1)
                    end).
  { unfold main, bind; rewrite Hflag.
    destruct (scrape_week w (__init__ env_key None) (arg_week args) n)
      as [[e | wd] n1]; [reflexivity|].
    unfold enrich_with_parallel, __init__, py_or;
      cbn [truthy_str parallel_api_key]; rewrite Hkey; reflexivity. }
  split; [|split; [|split; reflexivity]].
  - intros out n' H.
    destruct (main_inr w env_key args n out n' H)
      as (wd & tb & sl & hw & id & Hwd & ->).
    rewrite Hmain, Hwd in H; split; [now injection H|].
    eexists; split; reflexivity.
  - intros wd d Hwd Hd; rewrite Hmain, Hwd, Hd; reflexivity.
Qed.

Lemma no_key_papers_are_the_fallback_papers_witness :
  exists out content,
    main ex_world_page_only None ex_args 0 = (inr out, 0)
    /\ dict_get out "aggregatedContent" = Some content
    /\ dict_get content "papers" = Some (PyList fallback_paper_records).
Proof.
  destruct (no_key_papers_are_the_fallback_papers
              ex_world_page_only None ex_args 0 eq_refl eq_refl)
    as (Hpapers & Hreturns & _).
  destruct (scrape_week ex_world_page_only (__init__ None None)
                        (arg_week ex_args) 0) as [[e | wd] n1] eqn:Hwd;
    [vm_compute in Hwd; discriminate Hwd|].
  destruct (_structure_for_output ex_world_page_only wd) as [e | d] eqn:Hd.
  - vm_compute in Hwd; injection Hwd as <- <-.
    vm_compute in Hd; discriminate Hd.
  - assert (n1 = 0) as -> by (vm_compute in Hwd; now injection Hwd).
    pose proof (Hreturns wd d eq_refl Hd) as Hmain.
    destruct (Hpapers d 0 Hmain) as (_ & content & H1 & H2).
    exists d, content; repeat split; assumption.
Defined.



(** C9: whenever a document is produced, by [main] on any path, by
    [enrich_with_parallel] or by [_structure_for_output], the papers of its
    aggregatedContent are exactly the three static fallback records.
    [_structure_for_output] puts the fallback list there,
    [_parse_parallel_papers] returns it for any response, and so
    [_find_research_papers] returns it whatever the task endpoint does; the
    papers bucket of the week data is read by neither path, and no Resource
    is a member of the list.  A document is produced whenever
    [scrape_week] returns week data on which [_structure_for_output]
    returns. *)
Theorem output_papers_are_always_the_fallback_papers
        (w : World) (env_key : option string) (args : Args) (n : nat) :
  (forall out n',
      main w env_key args n = (inr out, n') ->
      exists content,
        dict_get out "aggregatedContent" = Some content
        /\ dict_get content "papers" = Some (PyList fallback_paper_records))
  /\ (forall (self : Self) (week_data : WeekData) (k : nat) out k',
         enrich_with_parallel w self week_data k = (inr out, k') ->
         exists content,
           dict_get out "aggregatedContent" = Some content
           /\ dict_get content "papers" = Some (PyList fallback_paper_records))
  /\ (forall (week_data : WeekData) out,
         _structure_for_output w week_data = inr out ->
         exists content,
           dict_get out "aggregatedContent" = Some content
           /\ dict_get content "papers" = Some (PyList fallback_paper_records))
  /\ (forall result : pyval,
         _parse_parallel_papers result = fallback_paper_records)
  /\ (forall (self : Self) (topic : string) (k : nat),
         exists k',
           _find_research_papers w self topic k
           = (inr fallback_paper_records, k'))
  /\ (forall r : Resource, ~ In (resource_dict r) fallback_paper_records)
  /\ (forall week_data d,
         scrape_week w (__init__ env_key None) (arg_week args) n
         = (inr week_data, n) ->
         _structure_for_output w week_data = inr d ->
         exists out n', main w env_key args n = (inr out, n')).
Proof.
  split; [|split; [|split; [|split; [|split; [|split]]]]].
  - intros out n' H.
    destruct (main_inr w env_key args n out n' H)
      as (wd & tb & sl & hw & id & _ & ->).
    eexists; split; reflexivity.
  - intros self wd k out k' H.
    pose proof (enrich_with_parallel_cases w self wd k) as Hc.
    destruct (_structure_for_output w wd) as [e | d].
    + destruct Hc as (k2 & Hc); rewrite Hc in H; discriminate H.
    + destruct Hc as (tb & sl & hw & id & k2 & Hc & _).
      rewrite Hc in H; injection H as <- _.
      eexists; split; reflexivity.
  - intros wd out H.
    destruct (structure_for_output_inr w wd out H)
      as (tb & sl & hw & _ & _ & _ & ->).
    eexists; split; reflexivity.
  - reflexivity.
  - intros; apply find_research_papers_fallback.
  - intros r [H | [H | [H | []]]]; discriminate H.
  - intros wd d Hwd Hd.
    pose proof (main_cases w env_key args n) as Hc.
    rewrite Hwd, Hd in Hc; destruct Hc as (tb & sl & hw & id & n' & Hc).
    eexists; exists n'; exact Hc.
Qed.

(* ================================================================== *)
(** * Further properties of the script *)

(** ** [scrape_week] *)

Lemma map_E_inl {A B} (f : A -> exn + B) (l : list A) (e : exn) :
  map_E f l = inl e -> exists x, In x l /\ f x = inl e.
Proof.
  induction l as [|x l IH]; cbn [map_E]; [discriminate|].
  unfold bind_E; destruct (f x) as [e' | y] eqn:Hx.
  - intro H; injection H as ->; exists x; split; [now left | exact Hx].
  - destruct (map_E f l) as [e' | ys]; [|discriminate].
    intro H; injection H as ->.
    destruct (IH eq_refl) as (x' & Hin & Hx'); exists x'; split;
      [now right | exact Hx'].
Qed.

(** When the links of a row cannot all be resolved, the exception is the
    one [urljoin] raised on an href of the row that does not start with
    "http". *)
Lemma row_links_inl (w : World) (self : Self) (row : node) (e : exn) :
  row_links w self row = inl e ->
  exists link href,
    In link (find_all_with ["a"] "href" row)
    /\ get link "href" = Some href
    /\ startswith href "http" = false
    /\ w_urljoin w (course_url self) href = inl e.
Proof.
  unfold row_links; intro H.
  destruct (map_E_inl _ _ _ H) as (link & Hin & Hlink).
  pose proof (find_all_with_has_attr ["a"] "href" row) as Hall.
  rewrite forallb_forall in Hall; specialize (Hall link Hin).
  unfold has_attr in Hall; unfold link_pair, bind_E in Hlink.
  destruct (get link "href") as [href|] eqn:Hget; [|discriminate Hall].
  exists link, href; split; [exact Hin|]; split; [exact Hget|].
  destruct (startswith href "http"); cbn [negb] in Hlink; [discriminate|].
  split; [reflexivity|].
  destruct (w_urljoin w (course_url self) href) as [e' | u];
    [now injection Hlink as -> | discriminate].
Qed.

(** X1: [scrape_week] issues no POST, and the only exception it lets
    through is one that [urljoin] raised on an href of the topic row that
    does not start with "http" (a failed fetch is caught, and neither
    [link['href']] nor [cells[1]] can fail); when it returns, the week of
    the data is the week it was asked for. *)
Theorem scrape_week_raises_only_what_urljoin_raises
        (w : World) (self : Self) (week_number : Z) (n : nat) :
  match scrape_week w self week_number n with
  | (inr week_data, n') => n' = n /\ week week_data = week_number
  | (inl e, n') =>
      n' = n
      /\ exists soup row link href,
          fetched_page w self = Some soup
          /\ topic_row soup = Some row
          /\ In link (find_all_with ["a"] "href" row)
          /\ get link "href" = Some href
          /\ startswith href "http" = false
          /\ w_urljoin w (course_url self) href = inl e
  end.
Proof.
  rewrite scrape_week_result.
  destruct (fetched_page w self) as [soup|] eqn:Hpage; [|split; reflexivity].
  destruct (topic_row soup) as [row|] eqn:Hrow; [|split; reflexivity].
  destruct (row_links w self row) as [e | links] eqn:Hlinks;
    [|split; reflexivity].
  split; [reflexivity|].
  destruct (row_links_inl w self row e Hlinks) as (link & href & H).
  exists soup, row, link, href.
  split; [reflexivity|]; split; [exact Hrow | exact H].
Qed.

(** X2: when the page fetch fails, by an exception of [requests] or by a
    4xx or 5xx status, [scrape_week] returns the static fallback data for the
    week. *)
Theorem scrape_week_fetch_failure_gives_fallback
        (w : World) (self : Self) (week_number : Z) (n : nat) :
  fetched_page w self = None ->
  scrape_week w self week_number n = (inr (_get_fallback_data week_number), n).
Proof. intro H; rewrite scrape_week_result, H; reflexivity. Qed.

Lemma scrape_week_fetch_failure_gives_fallback_witness :
  scrape_week ex_world_503 ex_self 4 0 = (inr (_get_fallback_data 4), 0).
Proof.
  apply (scrape_week_fetch_failure_gives_fallback ex_world_503 ex_self 4 0).
  reflexivity.
Defined.

(** X3: when the page is fetched but has no schedule table, or the table has
    no row of two cells or more on the topic, [scrape_week] returns the
    static fallback data for the week; nothing of the page is kept. *)
Theorem scrape_week_without_topic_row_gives_fallback
        (w : World) (self : Self) (week_number : Z) (n : nat) (soup : node) :
  fetched_page w self = Some soup ->
  topic_row soup = None ->
  scrape_week w self week_number n = (inr (_get_fallback_data week_number), n).
Proof.
  intros Hpage Hrow; rewrite scrape_week_result, Hpage, Hrow; reflexivity.
Qed.

Lemma scrape_week_without_topic_row_gives_fallback_witness :
  scrape_week ex_world_no_topic ex_self 3 0 = (inr (_get_fallback_data 3), 0).
Proof.
  apply (scrape_week_without_topic_row_gives_fallback
           ex_world_no_topic ex_self 3 0 ex_page_no_topic);
    reflexivity.
Defined.

(** X4: when the page is fetched, the located table has a topic row and
    [urljoin] accepts the hrefs of that row, [scrape_week] returns the week
    asked for, the stripped text of the second cell of that row as the
    topic, and the buckets obtained by categorizing the links of that row,
    in order, starting from empty buckets. *)
Theorem scrape_week_with_topic_row
        (w : World) (self : Self) (week_number : Z) (n : nat)
        (soup row : node) (links : list (string * string)) :
  fetched_page w self = Some soup ->
  topic_row soup = Some row ->
  row_links w self row = inr links ->
  exists c0 c1 more,
    cells_of row = c0 :: c1 :: more
    /\ scrape_week w self week_number n
       = (inr {| week := week_number;
                 topic := strip (get_text c1);
                 resources := categorize_all links empty_resources |}, n).
Proof.
  intros Hpage Hrow Hlinks.
  rewrite scrape_week_result, Hpage, Hrow, Hlinks.
  unfold topic_row in Hrow.
  destruct (locate_schedule_table (find_all ["table"] soup)) as [table|];
    [|discriminate Hrow].
  destruct (find_some_split _ _ _ Hrow) as (pre & post & _ & _ & Hq).
  destruct (rows_loop_hit w self row post
              {| week := week_number; topic := "";
                 resources := empty_resources |} n Hq)
    as (c0 & c1 & more & Hcells & _).
  exists c0, c1, more; split; [exact Hcells|].
  rewrite Hcells; reflexivity.
Qed.

Lemma scrape_week_with_topic_row_witness :
  exists c0 c1 more,
    cells_of ex_topic_row = c0 :: c1 :: more
    /\ scrape_week ex_world_page_only ex_self 3 0
       = (inr {| week := 3;
                 topic := strip (get_text c1);
                 resources :=
                   categorize_all
                     [ ("https://cseweb.ucsd.edu/classes/fa25/cse120-a/sema.pdf",
                        "Slides");
                       ("https://example.org/ostep/ch31.html", "Ch. 31") ]
                     empty_resources |}, 0).
Proof.
  apply (scrape_week_with_topic_row
           ex_world_page_only ex_self 3 0 ex_page_staff_first ex_topic_row);
    vm_compute; reflexivity.
Defined.

(** ** The locator and the row loop, in both directions *)

(** X5: what the locator returns tells what the tables are like.  If it
    returns a table, that table is one of the tables given, every table
    before it fails both tests and the table itself meets one of them; if it
    returns none, every table fails both tests. *)
Theorem locator_result_characterized (tables : list node) :
  match locate_schedule_table tables with
  | Some t =>
      exists pre post,
        tables = pre ++ t :: post
        /\ forallb passed_over pre = true
        /\ has_schedule_header t || first_cell_is_date t = true
  | None => forallb passed_over tables = true
  end.
Proof.
  induction tables as [|u tables IH]; [reflexivity|].
  cbn [locate_schedule_table].
  destruct (has_schedule_header u) eqn:H1.
  - exists [], tables; repeat split; now rewrite H1.
  - destruct (first_cell_is_date u) eqn:H2.
    + exists [], tables; repeat split; now rewrite H1, H2.
    + assert (Hu : passed_over u = true)
        by (unfold passed_over; now rewrite H1, H2).
      destruct (locate_schedule_table tables) as [t|].
      * destruct IH as (pre & post & -> & Hpre & Ht).
        exists (u :: pre), post; repeat split; [|exact Ht].
        cbn [forallb]; now rewrite Hu.
      * cbn [forallb]; now rewrite Hu.
Qed.

(** X6: the row loop issues no POST.  When it returns, it reports a topic
    exactly when some row has two cells or more and matches the topic
    pattern, and when it reports none it hands back the week data it was
    given, unchanged.  When it raises, the exception is the one that ended
    the resolution of the links of the first such row. *)
Theorem row_loop_found_iff_some_row_qualifies
        (w : World) (self : Self) (rows : list node)
        (week_data : WeekData) (n : nat) :
  match rows_loop w self rows week_data n with
  | (inr (found, week_data'), n') =>
      n' = n
      /\ found = existsb qualifies rows
      /\ (found = false -> week_data' = week_data)
  | (inl e, n') =>
      n' = n
      /\ exists row,
          List.find qualifies rows = Some row
          /\ row_links w self row = inl e
  end.
Proof.
  rewrite rows_loop_result.
  destruct (List.find qualifies rows) as [row|] eqn:Hfind.
  - destruct (find_some_split _ _ _ Hfind) as (pre & post & -> & _ & Hq).
    assert (Hex : existsb qualifies (pre ++ row :: post) = true).
    { apply existsb_exists; exists row; split; [|exact Hq].
      apply in_or_app; right; now left. }
    destruct (row_links w self row) as [e | links] eqn:Hlinks.
    + split; [reflexivity|]; exists row; split; [reflexivity | exact Hlinks].
    + rewrite Hex; repeat split; discriminate.
  - assert (Hex : existsb qualifies rows = false).
    { apply find_none_forallb in Hfind.
      induction rows as [|r rows IH]; [reflexivity|].
      cbn [forallb existsb] in *; apply andb_true_iff in Hfind as [Hr Hall].
      apply negb_true_iff in Hr; rewrite Hr; apply IH, Hall. }
    rewrite Hex; repeat split.
Qed.

(** ** The link categorizer, continued *)

Lemma categorize_link_category_of (u t : string) (r : Resources) :
  _categorize_link u t r = add_to (category_of u t) {| url := u; title := t |} r.
Proof.
  destruct (categorize_is_add_to u t) as [c Hc].
  unfold category_of; cbv zeta; rewrite (Hc empty_resources), Hc.
  destruct c; reflexivity.
Qed.

Ltac split_ifs :=
  repeat match goal with
         | |- context [if ?b then _ else _] =>
             lazymatch type of b with bool => destruct b end
         end.

(** X7: the categorizer does not look at letter case: two links whose urls
    agree up to case and whose texts agree up to case go to the same
    bucket. *)
Theorem categorize_ignores_case (u u' t t' : string) :
  lower u = lower u' ->
  lower t = lower t' ->
  category_of u t = category_of u' t'.
Proof.
  intros Hu Ht; unfold category_of, _categorize_link; cbv zeta.
  rewrite Hu, Ht; split_ifs; reflexivity.
Qed.

Lemma categorize_ignores_case_witness :
  category_of "HTTPS://EXAMPLE.ORG/Notes/Week3.PDF" "OPTIONAL Notes"
  = category_of "https://example.org/notes/week3.pdf" "optional notes".
Proof.
  apply (categorize_ignores_case
           "HTTPS://EXAMPLE.ORG/Notes/Week3.PDF"
           "https://example.org/notes/week3.pdf"
           "OPTIONAL Notes" "optional notes");
    reflexivity.
Defined.

(** X8: whether a link is a textbook link or a homework link is decided by
    its text alone: if a link goes to one of these two buckets, a link with
    the same text and any other url goes to the same bucket. *)
Theorem text_alone_decides_textbook_and_homework (u u' t : string) :
  In (category_of u t) [Textbook; Homework] ->
  category_of u' t = category_of u t.
Proof.
  unfold category_of, _categorize_link; cbv zeta.
  split_ifs; cbn; intro H;
    first [ reflexivity | destruct H as [H | [H | []]]; discriminate H ].
Qed.

Lemma text_alone_decides_textbook_and_homework_witness :
  category_of "https://arxiv.org/lecture/slides.pdf" "HW 3"
  = category_of "" "HW 3".
Proof.
  apply (text_alone_decides_textbook_and_homework
           "" "https://arxiv.org/lecture/slides.pdf" "HW 3").
  vm_compute; tauto.
Defined.

(** X9: categorizing a sequence of links is plain aggregation.  Each bucket
    ends up as what it held before, followed by the links of its category
    in the order in which they were given; nothing is dropped, merged or
    reordered, and a link given twice is there twice. *)
Theorem categorize_all_appends_in_order
        (links : list (string * string)) (r : Resources) (c : Category) :
  bucket c (categorize_all links r)
  = bucket c r
    ++ map resource_of
         (filter (fun p => Category_eqb c (category_of (fst p) (snd p))) links).
Proof.
  revert r; induction links as [|p links IH]; intro r.
  - simpl; now rewrite app_nil_r.
  - unfold categorize_all in *; cbn [fold_left filter].
    rewrite IH, categorize_link_category_of, bucket_add_to.
    destruct (Category_eqb c (category_of (fst p) (snd p)));
      [ now rewrite <- app_assoc | reflexivity ].
Qed.

(** ** The heuristics of the records *)

(** X10: of the five surnames [_extract_authors] looks for, only two have
    an effect.  A title that names Silberschatz (in any case) gets the three
    authors of that book, even if it names Tanenbaum too; otherwise a title
    that names Tanenbaum gets the two authors of that book; every other
    title, also one that names only Galvin, Gagne or Bos, gets
    "Unknown Author".  The list is never empty. *)
Theorem extract_authors_cases (t : string) :
  _extract_authors t
  = if contains "silberschatz" (lower t)
    then ["Abraham Silberschatz"; "Peter Baer Galvin"; "Greg Gagne"]
    else if contains "tanenbaum" (lower t)
         then ["Andrew S. Tanenbaum"; "Herbert Bos"]
         else ["Unknown Author"].
Proof.
  unfold _extract_authors; cbn [_extract_authors_loop].
  repeat match goal with
         | |- context [lower (String ?c ?s)] =>
             let v := eval vm_compute in (lower (String c s)) in
             change (lower (String c s)) with v
         | |- context [String.eqb (String ?c ?s) ?b] =>
             let v := eval vm_compute in (String.eqb (String c s) b) in
             change (String.eqb (String c s) b) with v
         end.
  cbv iota; split_ifs; reflexivity.
Qed.

(** ** The enrichment adapter, continued *)

(** X11: with an API key, and week data on which [_structure_for_output]
    returns (the heuristic records can be built), [enrich_with_parallel]
    issues one POST per resource of the textbook, slides and homework
    buckets and one more for the papers, in this order, and none for the
    resources of the papers bucket.  The record at position [i] of a list
    of the output is the one [_enrich_resource] returned for the [i]-th
    resource of the bucket, at the request that the order gives it. *)
Theorem enrich_with_parallel_requests
        (w : World) (self : Self) (week_data : WeekData) (n : nat)
        (d : pyval) :
  truthy_str (parallel_api_key self) = true ->
  _structure_for_output w week_data = inr d ->
  exists tb sl hw,
    enrich_with_parallel w self week_data n
    = (inr (document (week week_data) (topic week_data)
                     tb sl hw _get_fallback_papers
                     ("scrape-" ++ str_of_int (w_time w))%string
                     (w_strftime w)),
       n + length (textbook (resources week_data))
       + length (slides (resources week_data))
       + length (homework (resources week_data)) + 1)
    /\ (forall i r,
           nth_error (textbook (resources week_data)) i = Some r ->
           exists v,
             nth_error tb i = Some v
             /\ _enrich_resource w self r "textbook" (topic week_data) (n + i)
                = (inr v, S (n + i)))
    /\ (forall i r,
           nth_error (slides (resources week_data)) i = Some r ->
           exists v,
             nth_error sl i = Some v
             /\ _enrich_resource w self r "slides" (topic week_data)
                  (n + length (textbook (resources week_data)) + i)
                = (inr v, S (n + length (textbook (resources week_data)) + i)))
    /\ (forall i r,
           nth_error (homework (resources week_data)) i = Some r ->
           exists v,
             nth_error hw i = Some v
             /\ _enrich_resource w self r "homework" (topic week_data)
                  (n + length (textbook (resources week_data))
                   + length (slides (resources week_data)) + i)
                = (inr v, S (n + length (textbook (resources week_data))
                             + length (slides (resources week_data)) + i))).
Proof.
  intros Hkey Hd; unfold enrich_with_parallel; rewrite Hkey; cbn [negb].
  destruct (structure_for_output_inr w week_data d Hd)
    as (tb0 & sl0 & hw0 & M1 & M2 & M3 & _).
  pose proof (enrich_loop_cases w self "textbook" (topic week_data)
                (or_introl eq_refl) (textbook (resources week_data)) [] n)
    as H1.
  rewrite M1 in H1; destruct H1 as (tb & H1 & _ & _ & N1).
  pose proof (enrich_loop_cases w self "slides" (topic week_data)
                (or_intror (or_introl eq_refl))
                (slides (resources week_data)) []
                (n + length (textbook (resources week_data)))) as H2.
  rewrite M2 in H2; destruct H2 as (sl & H2 & _ & _ & N2).
  pose proof (enrich_loop_cases w self "homework" (topic week_data)
                (or_intror (or_intror (or_introl eq_refl)))
                (homework (resources week_data)) []
                (n + length (textbook (resources week_data))
                 + length (slides (resources week_data)))) as H3.
  rewrite M3 in H3; destruct H3 as (hw & H3 & _ & _ & N3).
  exists tb, sl, hw; split; [|split; [|split]].
  - unfold bind; rewrite H1; cbn [app]; rewrite H2; cbn [app].
    rewrite H3; cbn [app].
    rewrite (find_research_papers_one_post w self _ _ Hkey).
    unfold ret, document; do 2 f_equal; lia.
  - intros i r Hi; destruct (N1 i r Hi) as (v & Hv & Hcall & _).
    exists v; split; assumption.
  - intros i r Hi; destruct (N2 i r Hi) as (v & Hv & Hcall & _).
    exists v; split; assumption.
  - intros i r Hi; destruct (N3 i r Hi) as (v & Hv & Hcall & _).
    exists v; split; assumption.
Qed.

Lemma enrich_with_parallel_requests_witness :
  exists tb sl hw,
    enrich_with_parallel ex_world_online ex_self
                         (_get_fallback_data 3) 0
    = (inr (document 3 "Process Scheduling"
                     tb sl hw _get_fallback_papers
                     "scrape-1762300800" "2025-11-05T00:00:00Z"), 5)
    /\ length tb = 2 /\ length sl = 1 /\ length hw = 1.
Proof.
  destruct (_structure_for_output ex_world_online (_get_fallback_data 3))
    as [e | d] eqn:Hd; [vm_compute in Hd; discriminate Hd|].
  destruct (enrich_with_parallel_requests
              ex_world_online ex_self (_get_fallback_data 3) 0 d
              eq_refl Hd)
    as (tb & sl & hw & H & _).
  exists tb, sl, hw; split; [exact H|].
  vm_compute in H; injection H as <- <- <-; repeat split.
Defined.

(** X12: the enriched record owes nothing to the response.  For each of
    the three types, [_enrich_resource] raises exactly when the heuristics
    of the record raise, with their exception and whatever the service
    answers; otherwise what it returns is the heuristic record up to its
    confidence entry, and the confidence is 0.70 after a call that failed
    and, after one that succeeded, 0.90 for slides and 0.85 for a textbook
    or a homework. *)
Theorem enrich_resource_ignores_the_response
        (w : World) (self : Self) (r : Resource) (ty about : string)
        (k : nat) :
  In ty enriched_types ->
  match _basic_structure w r ty with
  | inl e => _enrich_resource w self r ty about k = (inl e, S k)
  | inr b =>
      exists v,
        _enrich_resource w self r ty about k = (inr v, S k)
        /\ without_confidence v = without_confidence b
        /\ dict_get v "confidence"
           = Some (PyFloat (if call_failed w k (search_request self r ty about)
                            then 0.70%Q else success_confidence ty))
  end.
Proof.
  intro Hty; pose proof (enrich_resource_cases w self r ty about k Hty) as H.
  destruct (_basic_structure w r ty) as [e | b]; [exact H|].
  destruct H as (v & Hcall & _ & _ & Hwc & Hconf & _).
  exists v; repeat split; assumption.
Qed.

Lemma enrich_resource_ignores_the_response_witness :
  exists v,
    _enrich_resource ex_world_online ex_self
                     {| url := "https://example.org/l1.pdf";
                        title := "Lecture 1" |}
                     "slides" "Semaphores and Monitors" 0
    = (inr v, 1)
    /\ without_confidence v
       = without_confidence
           (slides_record {| url := "https://example.org/l1.pdf";
                             title := "Lecture 1" |} 0.70)
    /\ dict_get v "confidence" = Some (PyFloat 0.90).
Proof.
  exact (enrich_resource_ignores_the_response
           ex_world_online ex_self
           {| url := "https://example.org/l1.pdf"; title := "Lecture 1" |}
           "slides" "Semaphores and Monitors" 0
           (or_intror (or_introl eq_refl))).
Defined.

Lemma unknown_type_eqb (ty : string) :
  unknown_type ty = true ->
  String.eqb ty "textbook" = false
  /\ String.eqb ty "slides" = false
  /\ String.eqb ty "homework" = false.
Proof.
  unfold unknown_type, enriched_types; cbn [forallb]; intro H.
  repeat (apply andb_true_iff in H as [?H H]).
  repeat split; now apply negb_true_iff.
Qed.

(** A resource type other than the three gives nothing: the empty dict from
    the heuristics, [None] from the end of the success branch. *)
Lemma enrich_resource_unknown_type (w : World) (self : Self) (r : Resource)
      (ty about : string) (k : nat) :
  unknown_type ty = true ->
  exists v,
    _enrich_resource w self r ty about k = (inr v, S k) /\ truthy v = false.
Proof.
  intro H; destruct (unknown_type_eqb ty H) as (H1 & H2 & H3).
  unfold _enrich_resource, _basic_structure; rewrite H1, H2, H3.
  run_post w k (search_request self r ty about);
    eexists; repeat split.
Qed.

(** X13: for a resource type that is none of textbook, slides and homework
    the enrichment loop still issues one POST per resource, but every result
    is falsy (an empty dict or [None]) and is dropped: the list of records
    is left as it was. *)
Theorem enrich_loop_unknown_type_adds_nothing
        (w : World) (self : Self) (ty about : string)
        (todo : list Resource) (done : list pyval) (n : nat) :
  unknown_type ty = true ->
  enrich_loop w self ty about todo done n = (inr done, n + length todo).
Proof.
  intro H; revert n; induction todo as [|r todo IH]; intro n.
  - cbn; now rewrite Nat.add_0_r.
  - destruct (enrich_resource_unknown_type w self r ty about n H)
      as (v & Hcall & Hfalsy).
    rewrite enrich_loop_cons; unfold bind; rewrite Hcall, Hfalsy, IH.
    cbn [length]; f_equal; lia.
Qed.

Lemma enrich_loop_unknown_type_adds_nothing_witness :
  enrich_loop ex_world_online ex_self "papers" "Semaphores and Monitors"
              ex_five_slides [] 0
  = (inr [], 0 + length ex_five_slides).
Proof.
  apply (enrich_loop_unknown_type_adds_nothing
           ex_world_online ex_self "papers" "Semaphores and Monitors"
           ex_five_slides [] 0).
  reflexivity.
Defined.

(** ** [main], continued *)

(** X14: --no-enrich gives exactly the document that a run without an API
    key gives, whatever key is there, and issues no POST. *)
Theorem no_enrich_is_the_document_without_key
        (w : World) (env_key : option string) (args : Args) (n : nat) :
  arg_no_enrich args = true ->
  main w env_key args n
  = main w None {| arg_week := arg_week args;
                   arg_output := arg_output args;
                   arg_no_enrich := false |} n
  /\ snd (main w env_key args n) = n.
Proof.
  intro Hflag; unfold main, bind; rewrite Hflag; cbn [arg_week arg_no_enrich].
  rewrite (scrape_week_course_url w (__init__ env_key None)
             (__init__ None None) (arg_week args) n eq_refl).
  pose proof (scrape_week_result w (__init__ None None) (arg_week args) n)
    as Hs.
  destruct (scrape_week w (__init__ None None) (arg_week args) n)
    as [[e | wd] n1].
  - split; [reflexivity|].
    destruct (fetched_page w _) as [soup|]; [|discriminate Hs].
    destruct (topic_row soup) as [row|]; [|discriminate Hs].
    destruct (row_links w _ row); now injection Hs.
  - split; [reflexivity|]; unfold lift; cbn [snd].
    destruct (fetched_page w _) as [soup|]; [|now injection Hs].
    destruct (topic_row soup) as [row|]; [|now injection Hs].
    destruct (row_links w _ row); now injection Hs.
Qed.

Lemma no_enrich_is_the_document_without_key_witness :
  main ex_world_online (Some "key-123")
       {| arg_week := 3; arg_output := "out.json"; arg_no_enrich := true |} 0
  = main ex_world_online None
         {| arg_week := 3; arg_output := "out.json"; arg_no_enrich := false |} 0
  /\ snd (main ex_world_online (Some "key-123")
               {| arg_week := 3; arg_output := "out.json";
                  arg_no_enrich := true |} 0) = 0.
Proof.
  apply (no_enrich_is_the_document_without_key
           ex_world_online (Some "key-123")
           {| arg_week := 3; arg_output := "out.json"; arg_no_enrich := true |}
           0).
  reflexivity.
Defined.

(** The week of the data [scrape_week] returns is the week asked for. *)
Lemma scrape_week_week (w : World) (self : Self) (week_number : Z)
      (n n' : nat) (week_data : WeekData) :
  scrape_week w self week_number n = (inr week_data, n') ->
  week week_data = week_number.
Proof.
  rewrite scrape_week_result.
  destruct (fetched_page w self) as [soup|];
    [|intro H; injection H as <- _; reflexivity].
  destruct (topic_row soup) as [row|];
    [|intro H; injection H as <- _; reflexivity].
  destruct (row_links w self row); [discriminate|].
  intro H; injection H as <- _; reflexivity.
Qed.

(** X15: every document [main] produces names the course "CSE 120" at
    "UCSD" and carries the week given on the command line, also when the
    page could not be scraped and the fallback data stand in; its time stamp
    is the one the clock gave. *)
Theorem main_document_names_course_and_week
        (w : World) (env_key : option string) (args : Args) (n n' : nat)
        (out : pyval) :
  main w env_key args n = (inr out, n') ->
  dict_get out "courseCode" = Some (PyStr "CSE 120")
  /\ dict_get out "institution" = Some (PyStr "UCSD")
  /\ dict_get out "weekNumber" = Some (PyInt (arg_week args))
  /\ exists content,
      dict_get out "aggregatedContent" = Some content
      /\ dict_get content "aggregatedAt" = Some (PyStr (w_strftime w)).
Proof.
  intro H.
  destruct (main_inr w env_key args n out n' H)
    as (wd & tb & sl & hw & id & Hwd & ->).
  rewrite <- (scrape_week_week _ _ _ _ _ _ Hwd).
  repeat split; eexists; split; reflexivity.
Qed.

Lemma main_document_names_course_and_week_witness :
  exists out n',
    main ex_world_503 (Some "key-123")
         {| arg_week := 7; arg_output := "out.json"; arg_no_enrich := false |}
         0
    = (inr out, n')
    /\ dict_get out "courseCode" = Some (PyStr "CSE 120")
    /\ dict_get out "institution" = Some (PyStr "UCSD")
    /\ dict_get out "weekNumber" = Some (PyInt 7)
    /\ exists content,
        dict_get out "aggregatedContent" = Some content
        /\ dict_get content "aggregatedAt"
           = Some (PyStr "2025-11-05T00:00:00Z").
Proof.
  destruct (main ex_world_503 (Some "key-123")
                 {| arg_week := 7; arg_output := "out.json";
                    arg_no_enrich := false |} 0)
    as [[e | out] n'] eqn:Hmain; [vm_compute in Hmain; discriminate Hmain|].
  exists out, n'; split; [reflexivity|].
  exact (main_document_names_course_and_week
           ex_world_503 (Some "key-123")
           {| arg_week := 7; arg_output := "out.json";
              arg_no_enrich := false |} 0 n' out Hmain).
Defined.

(** ** The heuristics of the records, continued *)






(** *** What the group of digits of a pattern holds *)









(** ** Enrichment and the heuristic document *)

(** X18: all that enrichment changes in the output is confidences and the
    run identifier.  With or without an API key and whatever the service
    answers: if [_structure_for_output] raises on the week data, so does
    [enrich_with_parallel], with the same exception; if it returns its
    document, [enrich_with_parallel] returns a document with the same week,
    topic, papers and time stamp, whose textbook, slides and homework
    records are the heuristic records of that document, in the same order,
    up to their confidence entries. *)
Theorem enrichment_changes_only_confidence
        (w : World) (self : Self) (week_data : WeekData) (n : nat) :
  match _structure_for_output w week_data with
  | inl e => exists n', enrich_with_parallel w self week_data n = (inl e, n')
  | inr d =>
      exists tb sl hw run_id n',
        enrich_with_parallel w self week_data n
        = (inr (document (week week_data) (topic week_data)
                         tb sl hw _get_fallback_papers
                         run_id (w_strftime w)), n')
        /\ exists tb0 sl0 hw0 run_id0,
            d = document (week week_data) (topic week_data)
                         tb0 sl0 hw0 _get_fallback_papers
                         run_id0 (w_strftime w)
            /\ map without_confidence tb = map without_confidence tb0
            /\ map without_confidence sl = map without_confidence sl0
            /\ map without_confidence hw = map without_confidence hw0
  end.
Proof.
  pose proof (enrich_with_parallel_cases w self week_data n) as H.
  destruct (_structure_for_output w week_data) as [e | d]; [exact H|].
  destruct H as (tb & sl & hw & id & n' & H & tb0 & sl0 & hw0 & id0
                 & Hd & E1 & E2 & E3 & _).
  exists tb, sl, hw, id, n'; split; [exact H|].
  exists tb0, sl0, hw0, id0; repeat split; assumption.
Qed.

(** ** The model at work *)

(** The spec's example of a slides link. *)
Example categorize_slide_deck :
  _categorize_link "https://cseweb.ucsd.edu/classes/fa25/cse120-a/lecture12.pdf"
                   "Slide Deck" empty_resources
  = add_to Slides
           {| url := "https://cseweb.ucsd.edu/classes/fa25/cse120-a/lecture12.pdf";
              title := "Slide Deck" |}
           empty_resources.
Proof. vm_compute; reflexivity. Qed.

(** The schedule of the example page: the row of one cell is passed over,
    the topic comes from the second cell of the topic row, the anchor
    without href is left out and the relative href is resolved. *)
Example scrape_week_example_page :
  scrape_week ex_world_page_only ex_self 3 0
  = (inr {| week := 3;
            topic := "Semaphores and Monitors";
            resources :=
              {| textbook :=
                   [ {| url := "https://example.org/ostep/ch31.html";
                        title := "Ch. 31" |} ];
                 slides :=
                   [ {| url := "https://cseweb.ucsd.edu/classes/fa25/cse120-a/sema.pdf";
                        title := "Slides" |} ];
                 homework := [];
                 papers := [] |} |}, 0).
Proof. vm_compute; reflexivity. Qed.

(** Five slide decks, the third request times out: five records, the third
    one heuristic with confidence 0.70, the others with 0.90. *)
Example enrich_five_slides_third_times_out :
  option_map
    (map (fun v => (dict_get v "url", dict_get v "confidence")))
    (match fst (enrich_loop ex_world_third_call_fails ex_self "slides"
                            "Semaphores and Monitors" ex_five_slides [] 0)
     with inr out => Some out | inl _ => None end)
  = Some [ (Some (PyStr "https://example.org/l1.pdf"), Some (PyFloat 0.90));
           (Some (PyStr "https://example.org/l2.pdf"), Some (PyFloat 0.90));
           (Some (PyStr "https://example.org/l3.pdf"), Some (PyFloat 0.70));
           (Some (PyStr "https://example.org/l4.pdf"), Some (PyFloat 0.90));
           (Some (PyStr "https://example.org/l5.pdf"), Some (PyFloat 0.90)) ].
Proof. vm_compute; reflexivity. Qed.

(** The heuristics of the records on the fallback week data. *)
Example heuristics_on_fallback_titles :
  _extract_authors "Tanenbaum Chapter 2"
  = ["Andrew S. Tanenbaum"; "Herbert Bos"]
  /\ _extract_chapter_number ex_world_offline "Silberschatz Chapter 5"
     = inr 5%Z
  /\ _extract_problem_numbers ex_world_offline "Problem Set 3"
     = inr ["1"; "2"; "3"]
  /\ _extract_problem_numbers ex_world_offline "Problems 3-6"
     = inr ["3"; "4"; "5"; "6"]
  /\ _extract_problem_numbers ex_world_offline "Exercises 3.1, 3.12"
     = inr ["3.1"; "3.12"].
Proof. repeat split; vm_compute; reflexivity. Qed.

(** [int] at its cap: 4300 digits are converted, 4301 are not. *)
Example int_at_the_cap :
  (exists z, py_int 4300 (nines 4300) = inr z)
  /\ py_int 4300 (nines 4301)
     = inl (ValueError "Exceeds the limit for integer string conversion")
  /\ (exists z, py_int 0 (nines 4301) = inr z).
Proof.
  split; [|split].
  - unfold py_int.
    replace (String.length (nines 4300)) with 4300 by (vm_compute; reflexivity).
    eexists; reflexivity.
  - unfold py_int.
    replace (String.length (nines 4301)) with 4301 by (vm_compute; reflexivity).
    reflexivity.
  - eexists; reflexivity.
Qed.
